(** * CKEditor 5 fragments: [toArray] and the table cell properties UI plugin

    A shallow embedding of

    - [packages/ckeditor5-utils/src/toarray.js] ([toArray]), and
    - the [TableCellPropertiesUI] plugin that lives in the same source file
      ([propertyNameToCommandName], [_fillViewFormFromCommandValues],
      [_showView], [_hideView], the listeners registered by [init]).

    JavaScript values are a small tagged union, strings are [string],
    JS objects used as records are [gmap string JsVal], and the stateful plugin
    code is written in a state-and-exception monad over the plugin's world. *)

From Stdlib Require Import Ascii String ZArith Lia.
From stdpp Require Import base option list gmap strings fin_maps.

(** ** JavaScript values *)

(** References ([JArr], [JObj]) are addresses: two arrays with the same
    contents but allocated separately are different values, as with [===].
    [JBatch id] is the [Batch] object that the model created [id]-th. *)
Inductive JsVal : Type :=
  | JUndefined
  | JNull
  | JBool (b : bool)
  | JNum (n : Z)
  | JNaN
  | JStr (s : string)
  | JArr (r : nat)
  | JObj (r : nat)
  | JBatch (id : nat).

#[global] Instance JsVal_eq_dec : EqDecision JsVal.
Proof. solve_decision. Defined.

(** [ToBoolean]: what [!value] tests. References are always truthy. *)
Definition truthy (v : JsVal) : bool :=
  match v with
  | JUndefined | JNull | JNaN => false
  | JBool b => b
  | JNum n => negb (n =? 0)%Z
  | JStr s => negb (String.eqb s "")
  | JArr _ | JObj _ | JBatch _ => true
  end.

Definition falsy (v : JsVal) : bool := negb (truthy v).

(** [Array.isArray] *)
Definition isArray (v : JsVal) : bool :=
  match v with JArr _ => true | _ => false end.

(** ** utils/toarray *)

Module ToArray.

(** The store of array objects: address [r] holds the elements of the
    array allocated [r]-th. *)
Definition Heap : Type := list (list JsVal).

(** An array literal allocates a new array object. *)
Definition alloc (elems : list JsVal) (h : Heap) : JsVal * Heap :=
  (JArr (length h), h ++ [elems]).

(** A missing argument reads as [undefined]. *)
Definition arg0 (args : list JsVal) : JsVal := default JUndefined (args !! 0).

(** [export default function toArray( data = [] )]: the default value is
    evaluated (and allocated) exactly when the argument is [undefined]. *)
Definition toArray (args : list JsVal) (h : Heap) : JsVal * Heap :=
  let '(data, h1) :=
    match arg0 args with
    | JUndefined => alloc [] h
    | d => (d, h)
    end in
  if isArray data then (data, h1) else alloc [data] h1.

(** The elements of an array value in a store. *)
Definition elements (v : JsVal) (h : Heap) : option (list JsVal) :=
  match v with JArr r => h !! r | _ => None end.

End ToArray.

(** ** table/tablecellpropertiesui: constants and the name mapping *)

Definition DEFAULT_BORDER_STYLE : string := "none".
Definition DEFAULT_HORIZONTAL_ALIGNMENT : string := "left".
Definition DEFAULT_VERTICAL_ALIGNMENT : string := "middle".

Definition CELL_PROPERTIES : list string :=
  [ "borderStyle"; "borderColor"; "borderWidth";
    "padding"; "backgroundColor";
    "horizontalAlignment"; "verticalAlignment" ].

(** [String.prototype.toUpperCase] on one character of the ASCII range: the
    letters a-z are mapped to A-Z and every other ASCII character is left as
    it is.  The names of the plugin are ASCII; on the characters of [string]
    above the ASCII range the function is not JavaScript's (which follows
    Unicode and can return more than one character), and the properties
    about arbitrary names are stated for an ASCII first character. *)
Definition toUpperCase (c : ascii) : ascii :=
  let n := nat_of_ascii c in
  if (97 <=? n)%nat && (n <=? 122)%nat then ascii_of_nat (n - 32) else c.


(** [propertyNameToCommandName]:
    [`tableCell${ propertyName[ 0 ].toUpperCase() }${ propertyName.slice( 1 ) }`].
    On the empty string [propertyName[ 0 ]] is [undefined] and the method
    call raises a [TypeError]: [None]. *)
Definition propertyNameToCommandName (propertyName : string) : option string :=
  match propertyName with
  | EmptyString => None
  | String c rest => Some ("tableCell" +:+ String (toUpperCase c) rest)
  end.

(** [CELL_PROPERTIES.includes( propertyName )] *)
Definition includes (l : list string) (x : string) : bool :=
  bool_decide (x ∈ l).

(** ** The plugin's world *)

(** Views that can sit in the balloon: the plugin's form ([this.view]) and
    the views of other plugins. *)
Inductive View : Type := FormView | OtherView (n : nat).

#[global] Instance View_eq_dec : EqDecision View.
Proof. solve_decision. Defined.

(** Who attached a callback: [this.listenTo( emitter, ... )] is recorded by
    the plugin (and is what [this.stopListening] can detach), while
    [this.view.on], [view.keystrokes.set] and [clickOutsideHandler( { emitter:
    view } )] attach on behalf of the view. *)
Inductive Owner : Type := ByPlugin | ByView.

(** [EmButton id] is the [id]-th button view made by the component
    factory. *)
Inductive Emitter : Type :=
  EmFormView | EmEditorUi | EmBalloon | EmButton (id : nat) | EmKeystrokes | EmDocument.

#[global] Instance Owner_eq_dec : EqDecision Owner.
Proof. solve_decision. Defined.

#[global] Instance Emitter_eq_dec : EqDecision Emitter.
Proof. solve_decision. Defined.

Definition Listener : Type := Owner * Emitter * string.

(** The second argument of [editor.execute]: the payload object
    [{ value, batch }] of a cell command, or the batch itself for ['undo']. *)
Inductive ExecArg : Type :=
  | ArgPayload (value : JsVal) (batch : JsVal)
  | ArgBatch (batch : JsVal).

#[global] Instance ExecArg_eq_dec : EqDecision ExecArg.
Proof. solve_decision. Defined.

(** Calls made on the collaborators, in the order they happen. *)
Inductive Call : Type :=
  | CBalloonAdd (v : View)
  | CBalloonRemove (v : View)
  | CCreateBatch
  | CExecute (name : string) (arg : ExecArg)
  | CFactoryAdd (name : string)
  | CViewRender
  | CViewSet (data : gmap string JsVal)
  | CViewFocus
  | CSaveButtonFocus
  | CEditingViewFocus
  | CReposition
  | CKeystrokeCancel.

(** Modelled from the spec: the collaborators of the plugin, which are not
    part of the source file (the contextual balloon, the command registry, the
    model's batch service and the form view).
    - [_balloon] is the display surface: a stack of views whose top is
      [visibleView]; [add] pushes, [remove] takes the view out.
    - [commands] is the command registry: [get(name).value] for every
      registered name.
    - [batches] counts the [createBatch()] calls: every call returns a new
      token.
    - every other call on a collaborator is recorded in [calls]; what the
      form view holds is read off them ([formOf] below). *)
Record World : Type := mkWorld {
  _balloon : list View;
  _batch : JsVal;
  listeners : list Listener;
  batches : nat;
  commands : gmap string JsVal;
  calls : list Call
}.

Definition set_balloon (f : list View → list View) (w : World) : World :=
  mkWorld (f (_balloon w)) (_batch w) (listeners w) (batches w) (commands w) (calls w).
Definition set_batch (b : JsVal) (w : World) : World :=
  mkWorld (_balloon w) b (listeners w) (batches w) (commands w) (calls w).
Definition set_listeners (f : list Listener → list Listener) (w : World) : World :=
  mkWorld (_balloon w) (_batch w) (f (listeners w)) (batches w) (commands w) (calls w).
Definition set_batches (n : nat) (w : World) : World :=
  mkWorld (_balloon w) (_batch w) (listeners w) n (commands w) (calls w).
Definition add_call (c : Call) (w : World) : World :=
  mkWorld (_balloon w) (_batch w) (listeners w) (batches w) (commands w) (calls w ++ [c]).

(** ** State and exception monad *)

Inductive Res (A : Type) : Type :=
  | Ok (a : A)
  | Throw (e : string).
Arguments Ok {A} a.
Arguments Throw {A} e.

(** A thrown exception leaves the effects made so far in place. *)
Definition M (A : Type) : Type := World → Res A * World.

#[global] Instance M_ret : MRet M := λ A a w, (Ok a, w).
#[global] Instance M_bind : MBind M := λ A B k m w,
  match m w with
  | (Ok a, w1) => k a w1
  | (Throw e, w1) => (Throw e, w1)
  end.

Definition throw {A : Type} (e : string) : M A := λ w, (Throw e, w).
Definition gets {A : Type} (f : World → A) : M A := λ w, (Ok (f w), w).
Definition modify (f : World → World) : M unit := λ w, (Ok tt, f w).
Definition call (c : Call) : M unit := modify (add_call c).

(** The world after running a callback; an exception ends the callback and
    is not seen by the next one. *)
Definition exec {A : Type} (m : M A) (w : World) : World := (m w).2.

(** ** The balloon *)

(** [this._balloon.visibleView === this.view] *)
Definition _isViewVisible : M bool :=
  gets (λ w, bool_decide (head (_balloon w) = Some FormView)).

(** [this._balloon.hasView( this.view )] *)
Definition _isViewInBalloon : M bool :=
  gets (λ w, bool_decide (FormView ∈ _balloon w)).

(** Modelled from the spec: the panel service's [add( { view, position } )]
    puts the view on top, where it is the visible one; where the balloon is
    placed ([getBalloonCellPositionData]) is not part of the world. *)
Definition balloon_add (v : View) : M unit :=
  modify (set_balloon (cons v)) ;; call (CBalloonAdd v).

(** Modelled from the spec: the panel service's [remove( view )]. *)
Definition balloon_remove (v : View) : M unit :=
  modify (set_balloon (filter (λ x, x ≠ v))) ;; call (CBalloonRemove v).

(** Modelled from the spec: [editor.model.createBatch()] returns a token
    that was not returned before. *)
Definition createBatch : M JsVal :=
  n ← gets batches ;
  modify (set_batches (S n)) ;;
  call CCreateBatch ;;
  mret (JBatch n).

(** [this.listenTo( emitter, event, ... )] and the registrations made for the view. *)
Definition attach (l : Listener) : M unit :=
  modify (set_listeners (λ ls, ls ++ [l])).

(** [this.stopListening( emitter, event )]: detaches what the plugin itself
    attached with [listenTo] on that emitter for that event. *)
Definition stopListening (e : Emitter) (event : string) : M unit :=
  modify (set_listeners (filter (λ l, l ≠ (ByPlugin, e, event)))).

(** ** The plugin's methods *)

(** The fallback chosen inside [if ( !value )]. *)
Definition defaultValue (propertyName : string) : JsVal :=
  if String.eqb propertyName "borderStyle" then JStr DEFAULT_BORDER_STYLE
  else if String.eqb propertyName "horizontalAlignment" then JStr DEFAULT_HORIZONTAL_ALIGNMENT
  else if String.eqb propertyName "verticalAlignment" then JStr DEFAULT_VERTICAL_ALIGNMENT
  else JStr "".

(** A template literal over a missing first character throws. *)
Definition commandName (propertyName : string) : M string :=
  match propertyNameToCommandName propertyName with
  | Some name => mret name
  | None => throw "TypeError"
  end.

(** [editor.commands.get( name ).value]: the registry has no command under
    a name that is not registered, and reading [value] off [undefined]
    throws. *)
Definition commandValue (name : string) : M JsVal :=
  cmds ← gets commands ;
  match cmds !! name with
  | Some v => mret v
  | None => throw "TypeError"
  end.

(** The callback that [_startRespondingToChangesInView] gives to
    [this.view.on( 'change', ... )]. *)
Definition onChange (propertyName : string) (newValue : JsVal) : M unit :=
  if negb (includes CELL_PROPERTIES propertyName) then mret tt else
  name ← commandName propertyName ;
  batch ← gets _batch ;
  call (CExecute name (ArgPayload newValue batch)).

(** ** The form view as an observable *)

(** [oldValue !== newValue] is the negation of this. *)
Definition strictEquals (a b : JsVal) : bool :=
  match a, b with
  | JNaN, _ | _, JNaN => false
  | _, _ => bool_decide (a = b)
  end.

(** The tracked property whose command has the given name. *)
Definition propertyOf (name : string) : option string :=
  head (filter (λ p, propertyNameToCommandName p = Some name) CELL_PROPERTIES).

(** Modelled from the spec: the form view, which is not part of the source
    file, is an observable store whose [set( record )] fires [change] for
    each property that it changes, and [on( 'change', ... )] callbacks get
    the name and the new value of the property.
    The values that the view holds for the tracked properties are read off
    the calls: a property has the value last given to it by [set], or last
    announced by a change that the change listener passed on to the
    property's command.  A property that neither has happened to is not yet
    defined on the view. *)
Definition formStep (form : gmap string JsVal) (c : Call) : gmap string JsVal :=
  match c with
  | CViewSet data => data ∪ form
  | CExecute name (ArgPayload value _) =>
      match propertyOf name with
      | Some propertyName => <[propertyName := value]> form
      | None => form
      end
  | _ => form
  end.

Definition formOf (cs : list Call) : gmap string JsVal := foldl formStep ∅ cs.

(** Setting a property fires [change] when the property is not yet defined
    or its old value differs from the new one. *)
Definition changed (form : gmap string JsVal) (k : string) (v : JsVal) : bool :=
  match form !! k with
  | Some old => negb (strictEquals old v)
  | None => true
  end.

(** How often the change callback is attached to the view. *)
Definition changeListeners (w : World) : nat :=
  length (filter (λ l, l = (ByView, EmFormView, "change")) (listeners w)).

(** Firing [change] for a property runs the [n] attached callbacks. *)
Fixpoint notify (n : nat) (k : string) (v : JsVal) : M unit :=
  match n with
  | 0 => mret tt
  | S m => onChange k v ;; notify m k v
  end.

(** [Object.keys( record ).forEach( property => this.set( property, ... ) )],
    against the values [old] that the view held before the call. *)
Fixpoint setProperties (old : gmap string JsVal) (keys : list string)
    (data : gmap string JsVal) : M unit :=
  match keys with
  | [] => mret tt
  | k :: rest =>
      match data !! k with
      | Some v =>
          if changed old k v
          then n ← gets changeListeners ; notify n k v
          else mret tt
      | None => mret tt
      end ;;
      setProperties old rest data
  end.

(** [view.set( data )], where [keys] are the keys of [data] in the order in
    which they were added to it. *)
Definition viewSet (keys : list string) (data : gmap string JsVal) : M unit :=
  old ← gets (λ w, formOf (calls w)) ;
  call (CViewSet data) ;;
  setProperties old keys data.

(** ** Filling and showing the form *)

(** The body of [for ( const propertyName of CELL_PROPERTIES )]. *)
Fixpoint fillLoop (props : list string) (data : gmap string JsVal)
  : M (gmap string JsVal) :=
  match props with
  | [] => mret data
  | propertyName :: rest =>
      name ← commandName propertyName ;
      value ← commandValue name ;
      let value := if falsy value then defaultValue propertyName else value in
      fillLoop rest (<[propertyName := value]> data)
  end.

(** The loop adds the keys to [data] in the order of [CELL_PROPERTIES]. *)
Definition _fillViewFormFromCommandValues : M unit :=
  data ← fillLoop CELL_PROPERTIES ∅ ;
  viewSet CELL_PROPERTIES data.

Definition _showView : M unit :=
  visible ← _isViewVisible ;
  if visible : bool then mret tt else
  inBalloon ← _isViewInBalloon ;
  (if negb inBalloon then balloon_add FormView else mret tt) ;;
  batch ← createBatch ;
  modify (set_batch batch) ;;
  _fillViewFormFromCommandValues ;;
  call CViewFocus.

Definition _hideView : M unit :=
  inBalloon ← _isViewInBalloon ;
  if negb inBalloon then mret tt else
  stopListening EmEditorUi "update" ;;
  stopListening EmBalloon "change:visibleView" ;;
  call CEditingViewFocus ;;
  inBalloon ← _isViewInBalloon ;
  if inBalloon : bool then
    call CSaveButtonFocus ;;
    balloon_remove FormView ;;
    call CEditingViewFocus
  else mret tt.

(** ** Events and the callbacks registered for them *)

(** The events come from outside: the toolbar button, the form's buttons
    and keystrokes, the editor UI, a click in the document, and the form
    view announcing that one of its observable properties has changed. *)

Inductive Event : Type :=
  | EvButtonExecute
  | EvSubmit
  | EvCancel
  | EvEsc
  | EvUiUpdate (tableSelected : bool)
  | EvClickOutside
  | EvChange (propertyName : string) (newValue : JsVal).

(** [tableSelected] is [getTableWidgetAncestor( viewDocument.selection )]
    being non-null when the editor UI updates.  [EvButtonExecute] is the
    ['execute'] event of the first button that the factory made; the other
    buttons have the same callback. *)
Definition listenerOf (ev : Event) : Listener :=
  match ev with
  | EvButtonExecute => (ByPlugin, EmButton 0, "execute")
  | EvSubmit => (ByPlugin, EmFormView, "submit")
  | EvCancel => (ByPlugin, EmFormView, "cancel")
  | EvEsc => (ByView, EmKeystrokes, "Esc")
  | EvUiUpdate _ => (ByPlugin, EmEditorUi, "update")
  | EvClickOutside => (ByView, EmDocument, "mousedown")
  | EvChange _ _ => (ByView, EmFormView, "change")
  end.

Definition onSubmit : M unit := _hideView.

Definition onCancel : M unit :=
  batch ← gets _batch ;
  call (CExecute "undo" (ArgBatch batch)) ;;
  _hideView.

Definition onEsc : M unit :=
  _hideView ;;
  call CKeystrokeCancel.

Definition onUiUpdate (tableSelected : bool) : M unit :=
  if negb tableSelected then _hideView
  else
    visible ← _isViewVisible ;
    if visible : bool then call CReposition else mret tt.

(** [clickOutsideHandler]: the callback runs when the activator holds. *)
Definition onClickOutside : M unit :=
  active ← _isViewInBalloon ;
  if active : bool then _hideView else mret tt.

Definition handler (ev : Event) : M unit :=
  match ev with
  | EvButtonExecute => _showView
  | EvSubmit => onSubmit
  | EvCancel => onCancel
  | EvEsc => onEsc
  | EvUiUpdate tableSelected => onUiUpdate tableSelected
  | EvClickOutside => onClickOutside
  | EvChange propertyName newValue => onChange propertyName newValue
  end.

(** Running the callback of an event, and a sequence of them. *)
Definition perform (ev : Event) (w : World) : World := exec (handler ev) w.

Definition run (evs : list Event) (w : World) : World :=
  foldl (λ w ev, perform ev w) w evs.

(** Firing an event on its emitter: the callback runs once per time it is
    attached (the emitter copies its callbacks before calling them), and an
    exception thrown by one run ends the firing. *)
Definition attached (ev : Event) (w : World) : nat :=
  length (filter (λ l, l = listenerOf ev) (listeners w)).

Fixpoint fireTimes (n : nat) (ev : Event) : M unit :=
  match n with
  | 0 => mret tt
  | S k => handler ev ;; fireTimes k ev
  end.

Definition fire (ev : Event) (w : World) : World :=
  exec (fireTimes (attached ev w) ev) w.

(** ** [init] *)

Definition _createPropertiesView : M unit :=
  call CViewRender ;;
  attach (ByPlugin, EmFormView, "submit") ;;
  attach (ByPlugin, EmFormView, "cancel") ;;
  attach (ByView, EmKeystrokes, "Esc") ;;
  attach (ByPlugin, EmEditorUi, "update") ;;
  attach (ByView, EmDocument, "mousedown").

Definition _startRespondingToChangesInView : M unit :=
  attach (ByView, EmFormView, "change").

(** [init] ends by adding the button's factory to the component factory;
    no button exists yet. *)
Definition init : M unit :=
  _createPropertiesView ;;
  modify (set_batch JNull) ;;
  _startRespondingToChangesInView ;;
  call (CFactoryAdd "tableCellProperties").

(** The buttons made so far: each one has the plugin listening to its
    ['execute'] event. *)
Definition isButtonListener (l : Listener) : bool :=
  match l with (ByPlugin, EmButton _, _) => true | _ => false end.

Definition buttons (w : World) : nat :=
  length (filter (λ l, isButtonListener l = true) (listeners w)).

(** The callback given to [componentFactory.add]: it runs each time the
    editor UI asks for a ['tableCellProperties'] component, makes a new
    button view and has the plugin listen to it.  The result is the new
    button. *)
Definition createButton : M nat :=
  id ← gets buttons ;
  attach (ByPlugin, EmButton id, "execute") ;;
  mret id.

(** The editor before the plugin is initialised. *)
Definition editor (cmds : gmap string JsVal) : World :=
  mkWorld [] JUndefined [] 0 cmds [].

Definition initial (cmds : gmap string JsVal) : World := exec init (editor cmds).

(** The two states of the visibility state machine. *)
Definition Hidden (w : World) : Prop := FormView ∉ _balloon w.
Definition Attached (w : World) : Prop := FormView ∈ _balloon w.

(** The [editor.execute] calls of a log. *)
Definition executes (cs : list Call) : list (string * ExecArg) :=
  omap (λ c, match c with CExecute name arg => Some (name, arg) | _ => None end) cs.

(** The batches handed to ['undo']. *)
Definition undos (cs : list Call) : list ExecArg :=
  omap (λ e : string * ExecArg, if String.eqb e.1 "undo" then Some e.2 else None)
       (executes cs).

(** The value the form receives for a property: the command's value, or the
    property's default when that value is falsy. *)
Definition formValue (cmds : gmap string JsVal) (propertyName : string) : option JsVal :=
  name ← propertyNameToCommandName propertyName ;
  value ← cmds !! name ;
  Some (if falsy value then defaultValue propertyName else value).

(** The [editor.execute] call that a change of a form field leads to, under
    the batch [b]: none for a property that is not tracked. *)
Definition changeCall (b : JsVal) (c : string * JsVal) : option (string * ExecArg) :=
  if includes CELL_PROPERTIES c.1
  then name ← propertyNameToCommandName c.1 ; Some (name, ArgPayload c.2 b)
  else None.

Definition changes (cs : list (string * JsVal)) : list Event :=
  map (λ c, EvChange c.1 c.2) cs.

(** A call of [editor.execute] as an entry of the log, and a world with
    more calls in its log. *)
Definition execCall (e : string * ExecArg) : Call := CExecute e.1 e.2.

Definition log_calls (cs : list Call) (w : World) : World :=
  mkWorld (_balloon w) (_batch w) (listeners w) (batches w) (commands w) (calls w ++ cs).

(** The [editor.execute] calls that [view.set( data )] leads to, through
    the [n] change callbacks and under the batch [b], when the view held
    [form] before: for each key whose value changes, in the order of the
    keys, what the callbacks execute. *)
Definition setExecutes (n : nat) (b : JsVal) (form : gmap string JsVal)
    (keys : list string) (data : gmap string JsVal) : list (string * ExecArg) :=
  concat (map (λ k,
    match data !! k with
    | Some v =>
        if changed form k v
        then concat (replicate n (option_list (changeCall b (k, v))))
        else []
    | None => []
    end) keys).

(** The record that [_fillViewFormFromCommandValues] builds, when every
    tracked property has its command registered. *)
Definition fillRecord (cmds : gmap string JsVal) : option (gmap string JsVal) :=
  if decide (Forall (λ p, is_Some (formValue cmds p)) CELL_PROPERTIES)
  then Some (foldl (λ d p, <[p := default JUndefined (formValue cmds p)]> d)
                   ∅ CELL_PROPERTIES)
  else None.

(** The view is on top of the balloon. *)
Definition Visible (w : World) : Prop := head (_balloon w) = Some FormView.

(** The [editor.execute] calls made during [_showView]: none when the view
    is visible or a command is missing, and otherwise those that setting
    the form leads to, under the batch that the call creates. *)
Definition showExecutes (w : World) : list (string * ExecArg) :=
  if decide (Visible w) then []
  else match fillRecord (commands w) with
       | Some data =>
           setExecutes (changeListeners w) (JBatch (batches w))
                       (formOf (calls w)) CELL_PROPERTIES data
       | None => []
       end.

(** Batch tokens handed out so far are those below [batches]. *)
Definition batchOk (n : nat) (v : JsVal) : Prop :=
  match v with JBatch k => k < n | _ => True end.

Definition argBatch (a : ExecArg) : JsVal :=
  match a with ArgPayload _ b => b | ArgBatch b => b end.

Definition wf (w : World) : Prop :=
  batchOk (batches w) (_batch w) ∧
  Forall (λ e : string * ExecArg, batchOk (batches w) (argBatch e.2)) (executes (calls w)).

(** The commands of the scenario: three report the empty string, the
    others ['x']. *)
Definition exampleCommands : gmap string JsVal :=
  list_to_map
    [ ("tableCellBorderStyle", JStr ""); ("tableCellBorderColor", JStr "x");
      ("tableCellBorderWidth", JStr "x"); ("tableCellPadding", JStr "x");
      ("tableCellBackgroundColor", JStr "x");
      ("tableCellHorizontalAlignment", JStr "");
      ("tableCellVerticalAlignment", JStr "") ].

(** The editor of the scenario with its toolbar button, and the form
    opened with it. *)
Definition exampleEditor : World := exec createButton (initial exampleCommands).

Definition exampleOpen : World := perform EvButtonExecute exampleEditor.

Definition exampleRecord : gmap string JsVal :=
  list_to_map
    [ ("borderStyle", JStr "none"); ("borderColor", JStr "x");
      ("borderWidth", JStr "x"); ("padding", JStr "x");
      ("backgroundColor", JStr "x");
      ("horizontalAlignment", JStr "left");
      ("verticalAlignment", JStr "middle") ].

(** ** What a callback can do to the world *)

(** Every callback is a composition of showing, hiding and calls on the
    collaborators; an [editor.execute] call is always made under the
    current batch. *)
Definition underBatch (c : Call) (w : World) : Prop :=
  match c with CExecute _ arg => argBatch arg = _batch w | _ => True end.

Inductive effect : World → World → Prop :=
  | effect_none w : effect w w
  | effect_show w : effect w (exec _showView w)
  | effect_hide w : effect w (exec _hideView w)
  | effect_call c w : underBatch c w → effect w (add_call c w)
  | effect_then w1 w2 w3 : effect w1 w2 → effect w2 w3 → effect w1 w3.

(** States that the plugin gets to, starting from [init], event by event
    and button by button. *)
Inductive reachable (cmds : gmap string JsVal) : World → Prop :=
  | reachable_initial : reachable cmds (initial cmds)
  | reachable_fire ev w : reachable cmds w → reachable cmds (fire ev w)
  | reachable_button w : reachable cmds w → reachable cmds (exec createButton w).

(** The listeners that [init] attaches and that stay attached: all but the
    one for the editor UI's update event, which [_hideView] detaches.  (The
    buttons' listeners are attached by the factory callback.) *)
Definition keptListener (ev : Event) : Prop :=
  match ev with EvUiUpdate _ | EvButtonExecute => False | _ => True end.

(** Setting the form changes none of its fields: for every tracked
    property the view already holds the value that the form receives. *)
Definition formUpToDate (w : World) : Prop :=
  ∀ p v, p ∈ CELL_PROPERTIES → formValue (commands w) p = Some v →
         changed (formOf (calls w)) p v = false.

(** The session of the scenario. *)
Definition exampleSession : list Event :=
  [ EvButtonExecute;
    EvChange "borderWidth" (JStr "2px");
    EvChange "padding" (JStr "5px");
    EvCancel ].

(** Another plugin's view on top of the attached form. *)
Definition exampleCovered : World :=
  set_balloon (cons (OtherView 0)) exampleOpen.

(** A batch value that is [null] or a token the model has created. *)
Definition createdBatch (n : nat) (v : JsVal) : Prop :=
  v = JNull ∨ ∃ k, k < n ∧ v = JBatch k.

(** The calls [_hideView] makes when the form is in the balloon. *)
Definition hideCalls : list Call :=
  [CEditingViewFocus; CSaveButtonFocus; CBalloonRemove FormView; CEditingViewFocus].

(** A form that was opened, accepted and opened again. *)
Definition exampleReopened : World :=
  perform EvButtonExecute (perform EvSubmit exampleOpen).

(** * Properties *)

(** ** The monad and the log *)

Ltac unfold_m :=
  unfold exec, mbind, M_bind, mret, M_ret, gets, modify, call, throw in *.

Lemma executes_app (cs1 cs2 : list Call) :
  executes (cs1 ++ cs2) = executes cs1 ++ executes cs2.
Proof. unfold executes. apply omap_app. Qed.

Lemma undos_app (cs1 cs2 : list Call) :
  undos (cs1 ++ cs2) = undos cs1 ++ undos cs2.
Proof. unfold undos. rewrite executes_app. apply omap_app. Qed.

Lemma filter_all {A : Type} (P : A → Prop) `{!∀ x, Decision (P x)} (l : list A) :
  Forall P l → filter P l = l.
Proof.
  induction 1 as [|x l Hx _ IH]; [reflexivity|].
  rewrite filter_cons_True by assumption. by rewrite IH.
Qed.

Lemma tracked_cases (p : string) :
  p ∈ CELL_PROPERTIES →
  p = "borderStyle" ∨ p = "borderColor" ∨ p = "borderWidth" ∨ p = "padding" ∨
  p = "backgroundColor" ∨ p = "horizontalAlignment" ∨ p = "verticalAlignment".
Proof.
  unfold CELL_PROPERTIES. rewrite !elem_of_cons, elem_of_nil. tauto.
Qed.

Ltac tracked H :=
  apply tracked_cases in H;
  destruct H as [-> | [-> | [-> | [-> | [-> | [-> | ->]]]]]].

Lemma tracked_name (p : string) :
  p ∈ CELL_PROPERTIES →
  ∃ c rest, p = String c rest ∧
    propertyNameToCommandName p = Some ("tableCell" +:+ String (toUpperCase c) rest).
Proof. intros H. tracked H; eexists _, _; split; reflexivity. Qed.

Lemma tracked_name_not_undo (p name : string) :
  p ∈ CELL_PROPERTIES → propertyNameToCommandName p = Some name →
  String.eqb name "undo" = false.
Proof. intros H E. tracked H; injection E as <-; reflexivity. Qed.

(** ** [_hideView] *)

Ltac hide_cases w :=
  unfold _hideView, _isViewInBalloon, balloon_remove, stopListening; unfold_m;
  simpl; destruct (bool_decide (FormView ∈ _balloon w)) eqn:Heqb; simpl;
  rewrite ?Heqb; unfold_m; simpl.

Lemma hideView_ok (w : World) : (_hideView w).1 = Ok tt.
Proof. hide_cases w; reflexivity. Qed.

Lemma hideView_Hidden (w : World) : Hidden w → _hideView w = (Ok tt, w).
Proof.
  intros H. hide_cases w; [|reflexivity].
  apply bool_decide_eq_true in Heqb. contradiction.
Qed.

Lemma hideView_balloon (w : World) :
  _balloon (exec _hideView w) = filter (λ x, x ≠ FormView) (_balloon w).
Proof.
  hide_cases w; [reflexivity|].
  apply bool_decide_eq_false in Heqb. symmetry.
  apply filter_all. apply Forall_forall. intros x Hx ->. contradiction.
Qed.

Lemma hideView_hides (w : World) : Hidden (exec _hideView w).
Proof.
  unfold Hidden. rewrite hideView_balloon, list_elem_of_filter. tauto.
Qed.

Lemma hideView_batch (w : World) :
  _batch (exec _hideView w) = _batch w ∧ batches (exec _hideView w) = batches w
  ∧ commands (exec _hideView w) = commands w.
Proof. hide_cases w; auto. Qed.

Lemma hideView_executes (w : World) :
  executes (calls (exec _hideView w)) = executes (calls w).
Proof.
  hide_cases w; [|reflexivity].
  rewrite !executes_app. simpl. rewrite !app_nil_r. reflexivity.
Qed.

Lemma hideView_listeners (w : World) (l : Listener) :
  l ≠ (ByPlugin, EmEditorUi, "update") →
  l ≠ (ByPlugin, EmBalloon, "change:visibleView") →
  filter (λ x, x = l) (listeners (exec _hideView w)) = filter (λ x, x = l) (listeners w).
Proof.
  intros H1 H2. hide_cases w; [|reflexivity].
  rewrite !list_filter_filter. apply list_filter_iff.
  intros x. split; [tauto|]. intros ->. auto.
Qed.

(** ** The change listener *)

Lemma onChange_untracked (p : string) (v : JsVal) (w : World) :
  p ∉ CELL_PROPERTIES → onChange p v w = (Ok tt, w).
Proof.
  intros H. unfold onChange, includes.
  rewrite bool_decide_eq_false_2 by exact H. reflexivity.
Qed.

Lemma onChange_tracked (p : string) (v : JsVal) (w : World) :
  p ∈ CELL_PROPERTIES →
  ∃ name, propertyNameToCommandName p = Some name ∧
    onChange p v w = (Ok tt, add_call (CExecute name (ArgPayload v (_batch w))) w).
Proof.
  intros H. unfold onChange, includes, commandName.
  rewrite bool_decide_eq_true_2 by exact H.
  destruct (tracked_name p H) as (c & rest & -> & E).
  eexists. split; [exact E|]. simpl. reflexivity.
Qed.

(** ** Calls added to the log *)

Lemma log_calls_nil (w : World) : log_calls [] w = w.
Proof. destruct w. unfold log_calls. simpl. by rewrite app_nil_r. Qed.

Lemma log_calls_app (cs1 cs2 : list Call) (w : World) :
  log_calls cs2 (log_calls cs1 w) = log_calls (cs1 ++ cs2) w.
Proof. unfold log_calls. simpl. by rewrite app_assoc. Qed.

Lemma add_call_log (c : Call) (w : World) : add_call c w = log_calls [c] w.
Proof. reflexivity. Qed.

Lemma executes_execCall (es : list (string * ExecArg)) :
  executes (execCall <$> es) = es.
Proof.
  induction es as [|[name arg] es IH]; [reflexivity|].
  change (executes (execCall <$> (name, arg) :: es))
    with ((name, arg) :: executes (execCall <$> es)).
  by rewrite IH.
Qed.

Lemma onChange_run (k : string) (v : JsVal) (w : World) :
  onChange k v w
    = (Ok tt, log_calls (execCall <$> option_list (changeCall (_batch w) (k, v))) w).
Proof.
  unfold changeCall, includes. simpl.
  destruct (decide (k ∈ CELL_PROPERTIES)) as [H|H].
  - destruct (onChange_tracked k v w H) as (name & E & ->).
    rewrite bool_decide_eq_true_2 by exact H. rewrite E. reflexivity.
  - rewrite onChange_untracked by exact H.
    rewrite bool_decide_eq_false_2 by exact H. simpl. by rewrite log_calls_nil.
Qed.

Lemma notify_run (n : nat) (k : string) (v : JsVal) (w : World) :
  notify n k v w
    = (Ok tt, log_calls
                (execCall <$> concat (replicate n (option_list (changeCall (_batch w) (k, v)))))
                w).
Proof.
  revert w. induction n as [|n IH]; intros w.
  - simpl. by rewrite log_calls_nil.
  - cbn [notify replicate concat]. unfold_m. rewrite onChange_run, IH.
    rewrite log_calls_app, fmap_app. reflexivity.
Qed.

Lemma setProperties_run (old : gmap string JsVal) (keys : list string)
    (data : gmap string JsVal) (w : World) :
  setProperties old keys data w
    = (Ok tt, log_calls
                (execCall <$> setExecutes (changeListeners w) (_batch w) old keys data) w).
Proof.
  revert w. induction keys as [|k keys IH]; intros w.
  - simpl. by rewrite log_calls_nil.
  - cbn [setProperties]. unfold setExecutes. cbn [map concat].
    fold (setExecutes (changeListeners w) (_batch w) old keys data).
    unfold_m. destruct (data !! k) as [v|]; [destruct (changed old k v)|].
    + simpl. rewrite notify_run. cbv beta iota. rewrite IH.
      change (changeListeners (log_calls ?cs w)) with (changeListeners w).
      change (_batch (log_calls ?cs w)) with (_batch w).
      rewrite log_calls_app, fmap_app. reflexivity.
    + simpl. apply IH.
    + simpl. apply IH.
Qed.

Lemma viewSet_run (keys : list string) (data : gmap string JsVal) (w : World) :
  viewSet keys data w
    = (Ok tt, log_calls
                (CViewSet data ::
                 (execCall <$> setExecutes (changeListeners w) (_batch w)
                                           (formOf (calls w)) keys data)) w).
Proof.
  unfold viewSet. unfold_m. simpl. rewrite setProperties_run.
  rewrite add_call_log, log_calls_app. reflexivity.
Qed.

(** What the callbacks execute for a property is what a change of that
    property executes. *)
Lemma setExecutes_changeCalls (n : nat) (b : JsVal) (form : gmap string JsVal)
    (keys : list string) (data : gmap string JsVal) :
  Forall (λ e, ∃ c, changeCall b c = Some e) (setExecutes n b form keys data).
Proof.
  unfold setExecutes. apply Forall_concat, Forall_fmap, Forall_forall.
  intros k _. simpl. destruct (data !! k) as [v|]; [|constructor].
  destruct (changed form k v); [|constructor].
  apply Forall_concat, Forall_replicate.
  destruct (changeCall b (k, v)) as [e|] eqn:E; simpl; [|constructor].
  constructor; [eauto | constructor].
Qed.

Lemma setExecutes_unchanged (n : nat) (b : JsVal) (form : gmap string JsVal)
    (keys : list string) (data : gmap string JsVal) :
  (∀ k v, k ∈ keys → data !! k = Some v → changed form k v = false) →
  setExecutes n b form keys data = [].
Proof.
  intros H. unfold setExecutes. induction keys as [|k keys IH]; [reflexivity|].
  cbn [map concat]. rewrite IH by (intros k' v' Hk'; apply H; by right).
  destruct (data !! k) as [v|] eqn:E; [|reflexivity].
  rewrite (H k v) by (done || left). reflexivity.
Qed.

(** ** [_fillViewFormFromCommandValues] *)

Lemma fillLoop_world (props : list string) (data : gmap string JsVal) (w : World) :
  (fillLoop props data w).2 = w.
Proof.
  revert data. induction props as [|p props IH]; intros data; [reflexivity|].
  simpl. unfold commandName, commandValue. unfold_m.
  destruct (propertyNameToCommandName p) as [name|]; [|reflexivity].
  simpl. destruct (commands w !! name) as [v|]; [|reflexivity].
  apply IH.
Qed.

Lemma fillLoop_ok (props : list string) (data : gmap string JsVal) (w : World) :
  Forall (λ p, is_Some (formValue (commands w) p)) props →
  fillLoop props data w =
    (Ok (foldl (λ d p, <[p := default JUndefined (formValue (commands w) p)]> d)
               data props), w).
Proof.
  intros H. revert data. induction H as [|p props [x Hx] _ IH]; intros data;
    [reflexivity|].
  simpl. unfold commandName, commandValue. unfold_m.
  unfold formValue in Hx |- *.
  destruct (propertyNameToCommandName p) as [name|]; [|discriminate].
  simpl in *. destruct (commands w !! name) as [v|]; [|discriminate].
  simpl in *. apply IH.
Qed.

Lemma fillLoop_ok_inv (props : list string) (data data' : gmap string JsVal)
    (w w' : World) :
  fillLoop props data w = (Ok data', w') →
  Forall (λ p, is_Some (formValue (commands w) p)) props.
Proof.
  revert data. induction props as [|p props IH]; intros data H; [constructor|].
  cbn [fillLoop] in H. unfold commandName, commandValue in H. unfold_m.
  destruct (propertyNameToCommandName p) as [name|] eqn:En; [|discriminate].
  simpl in H. destruct (commands w !! name) as [v|] eqn:Ec; [|discriminate].
  simpl in H. constructor; [|by eapply IH].
  unfold formValue. rewrite En. simpl. rewrite Ec. simpl. eauto.
Qed.

Lemma fillRecord_Some (cmds data : gmap string JsVal) :
  fillRecord cmds = Some data ↔
  Forall (λ p, is_Some (formValue cmds p)) CELL_PROPERTIES ∧
  data = foldl (λ d p, <[p := default JUndefined (formValue cmds p)]> d) ∅ CELL_PROPERTIES.
Proof.
  unfold fillRecord. destruct (decide _) as [H|H].
  - split; [intros [= <-]; by split | intros [_ ->]; reflexivity].
  - split; [discriminate | intros [? _]; contradiction].
Qed.

Lemma fill_cases (w : World) :
  (∃ e, fillRecord (commands w) = None ∧
     _fillViewFormFromCommandValues w = (Throw e, w)) ∨
  (∃ data, fillRecord (commands w) = Some data ∧
     fillLoop CELL_PROPERTIES ∅ w = (Ok data, w) ∧
     _fillViewFormFromCommandValues w
       = (Ok tt, log_calls
                   (CViewSet data ::
                    (execCall <$> setExecutes (changeListeners w) (_batch w)
                                              (formOf (calls w)) CELL_PROPERTIES data)) w)).
Proof.
  unfold _fillViewFormFromCommandValues. unfold_m.
  pose proof (fillLoop_world CELL_PROPERTIES ∅ w) as Hw.
  destruct (fillLoop CELL_PROPERTIES ∅ w) as [[data|e] w'] eqn:E; simpl in Hw; subst w'.
  - right. exists data. pose proof (fillLoop_ok_inv _ _ _ _ _ E) as Hs.
    split; [|split; [reflexivity | apply viewSet_run]].
    apply fillRecord_Some. split; [exact Hs|].
    rewrite (fillLoop_ok _ _ _ Hs) in E. congruence.
  - left. exists e. split; [|reflexivity].
    destruct (fillRecord (commands w)) as [data|] eqn:F; [|reflexivity].
    apply fillRecord_Some in F as [Hs _].
    rewrite (fillLoop_ok _ _ _ Hs) in E. discriminate.
Qed.

Arguments _fillViewFormFromCommandValues : simpl never.

(** The calls that do not bear on the form leave its values as they are. *)
Lemma formOf_app (cs1 cs2 : list Call) :
  formOf (cs1 ++ cs2) = foldl formStep (formOf cs1) cs2.
Proof. unfold formOf. apply foldl_app. Qed.

(** ** [_showView] *)

Lemma showView_Visible (w : World) : Visible w → _showView w = (Ok tt, w).
Proof.
  intros H. unfold _showView, _isViewVisible. unfold_m. simpl.
  rewrite bool_decide_eq_true_2 by exact H. reflexivity.
Qed.

Ltac show_cases w :=
  unfold _showView, _isViewVisible, _isViewInBalloon, createBatch, balloon_add;
  unfold_m; simpl;
  destruct (bool_decide (head (_balloon w) = Some FormView)) eqn:Hvis; simpl;
  [| destruct (bool_decide (FormView ∈ _balloon w)) eqn:Hin; simpl;
     match goal with
     | |- context [_fillViewFormFromCommandValues ?W] =>
         let e := fresh "e" in let data := fresh "data" in
         let He := fresh "He" in let Hd := fresh "Hd" in
         let Hr := fresh "Hr" in
         destruct (fill_cases W) as [[e [Hr He]] | [data [Hr [Hd He]]]];
         rewrite He; simpl; simpl in Hr
     end ].

Lemma showView_batch (w : World) :
  ¬ Visible w →
  _batch (exec _showView w) = JBatch (batches w) ∧
  batches (exec _showView w) = S (batches w).
Proof.
  intros H. show_cases w; auto.
  apply bool_decide_eq_true in Hvis. contradiction.
Qed.

Lemma showView_balloon (w : World) :
  Hidden w → _balloon (exec _showView w) = FormView :: _balloon w.
Proof.
  intros H. show_cases w; auto.
  - apply bool_decide_eq_true in Hvis. exfalso. apply H.
    destruct (_balloon w) as [|x l]; [discriminate|].
    injection Hvis as ->. left.
  - apply bool_decide_eq_true in Hin. contradiction.
  - apply bool_decide_eq_true in Hin. contradiction.
Qed.

Lemma showView_Attached (w : World) : Attached w → Attached (exec _showView w).
Proof.
  intros H. show_cases w; auto.
  - apply bool_decide_eq_false in Hin. contradiction.
  - apply bool_decide_eq_false in Hin. contradiction.
Qed.

Lemma executes_ViewSet (data : gmap string JsVal) (cs : list Call) :
  executes (CViewSet data :: cs) = executes cs.
Proof. reflexivity. Qed.

Lemma showView_executes (w : World) :
  executes (calls (exec _showView w)) = executes (calls w) ++ showExecutes w.
Proof.
  assert (E1 : executes [CCreateBatch] = []) by reflexivity.
  assert (E2 : executes [CViewFocus] = []) by reflexivity.
  assert (E3 : executes [CBalloonAdd FormView] = []) by reflexivity.
  unfold showExecutes.
  show_cases w;
    [ rewrite decide_True by (by apply bool_decide_eq_true in Hvis);
      by rewrite app_nil_r
    | rewrite decide_False by (by apply bool_decide_eq_false in Hvis);
      rewrite Hr, !executes_app, ?executes_ViewSet, ?executes_execCall,
        ?E1, ?E2, ?E3, ?formOf_app, ?app_nil_r; reflexivity .. ].
Qed.

Lemma showExecutes_changeCalls (w : World) :
  Forall (λ e, ∃ c, changeCall (JBatch (batches w)) c = Some e) (showExecutes w).
Proof.
  unfold showExecutes. destruct (decide (Visible w)); [constructor|].
  destruct (fillRecord (commands w)); [|constructor].
  apply setExecutes_changeCalls.
Qed.

Lemma showView_listeners (w : World) :
  listeners (exec _showView w) = listeners w ∧ commands (exec _showView w) = commands w.
Proof. show_cases w; auto. Qed.

Lemma showView_shows (w : World) : Hidden w → Visible (exec _showView w).
Proof. intros H. unfold Visible. rewrite showView_balloon by exact H. reflexivity. Qed.

Lemma perform_change (c : string * JsVal) (w : World) :
  let w' := perform (EvChange c.1 c.2) w in
  _balloon w' = _balloon w ∧ _batch w' = _batch w ∧ batches w' = batches w ∧
  listeners w' = listeners w ∧ commands w' = commands w ∧
  executes (calls w') = executes (calls w) ++ option_list (changeCall (_batch w) c).
Proof.
  destruct c as [p v]. unfold perform, exec, changeCall, includes. simpl.
  destruct (decide (p ∈ CELL_PROPERTIES)) as [H|H].
  - destruct (onChange_tracked p v w H) as (name & E & ->).
    rewrite bool_decide_eq_true_2 by exact H. rewrite E. simpl.
    rewrite executes_app. auto 10.
  - rewrite onChange_untracked by exact H.
    rewrite bool_decide_eq_false_2 by exact H. simpl. rewrite app_nil_r. auto 10.
Qed.

Lemma run_app (evs1 evs2 : list Event) (w : World) :
  run (evs1 ++ evs2) w = run evs2 (run evs1 w).
Proof. unfold run. apply foldl_app. Qed.

Lemma run_changes (cs : list (string * JsVal)) (w : World) :
  let w' := run (changes cs) w in
  _balloon w' = _balloon w ∧ _batch w' = _batch w ∧ batches w' = batches w ∧
  listeners w' = listeners w ∧ commands w' = commands w ∧
  executes (calls w') = executes (calls w) ++ omap (changeCall (_batch w)) cs.
Proof.
  revert w. induction cs as [|c cs IH]; intros w; simpl.
  - rewrite app_nil_r. auto 10.
  - destruct (perform_change c w) as (Hb & Ht & Hn & Hl & Hc & He).
    destruct (IH (perform (EvChange c.1 c.2) w)) as (Hb' & Ht' & Hn' & Hl' & Hc' & He').
    unfold changes in *. simpl in *.
    rewrite Hb', Ht', Hn', Hl', Hc', He', Hb, Ht, Hn, Hl, Hc, He.
    repeat split; try reflexivity.
    rewrite <- app_assoc. f_equal.
    destruct (changeCall (_batch w) c); reflexivity.
Qed.

(** For tracked properties every change gives one call. *)
Lemma changeCalls_tracked (b : JsVal) (cs : list (string * JsVal)) :
  Forall (λ c, c.1 ∈ CELL_PROPERTIES) cs →
  Forall2 (λ c e, propertyNameToCommandName c.1 = Some e.1 ∧ e.2 = ArgPayload c.2 b)
          cs (omap (changeCall b) cs).
Proof.
  induction 1 as [|[p v] cs H _ IH]; simpl; [constructor|].
  unfold changeCall at 1, includes. simpl.
  rewrite bool_decide_eq_true_2 by exact H.
  destruct (tracked_name p H) as (c & rest & -> & E). rewrite E. simpl.
  constructor; [split; [exact E | reflexivity] | exact IH].
Qed.

Lemma changeCall_not_undo (b : JsVal) (c : string * JsVal) (e : string * ExecArg) :
  changeCall b c = Some e → String.eqb e.1 "undo" = false.
Proof.
  unfold changeCall, includes. destruct c as [p v]. simpl.
  destruct (decide (p ∈ CELL_PROPERTIES)) as [H|H].
  - rewrite bool_decide_eq_true_2 by exact H.
    destruct (propertyNameToCommandName p) as [name|] eqn:E; [|discriminate].
    simpl. intros [= <-]. exact (tracked_name_not_undo p name H E).
  - rewrite bool_decide_eq_false_2 by exact H. discriminate.
Qed.

Lemma changeCall_batch (b : JsVal) (c : string * JsVal) (e : string * ExecArg) :
  changeCall b c = Some e → argBatch e.2 = b.
Proof.
  unfold changeCall. destruct (includes _ _); [|discriminate].
  destruct (propertyNameToCommandName c.1); [|discriminate].
  simpl. by intros [= <-].
Qed.

Lemma showExecutes_batch (w : World) :
  Forall (λ e : string * ExecArg, argBatch e.2 = JBatch (batches w)) (showExecutes w).
Proof.
  eapply Forall_impl; [apply showExecutes_changeCalls|].
  intros e [c Hc]. by eapply changeCall_batch.
Qed.

Lemma showExecutes_no_undo (w : World) :
  omap (λ e : string * ExecArg, if String.eqb e.1 "undo" then Some e.2 else None)
       (showExecutes w) = [].
Proof.
  pose proof (showExecutes_changeCalls w) as H.
  induction H as [|e es [c Hc] _ IH]; [reflexivity|].
  cbn [omap list_omap]. by rewrite (changeCall_not_undo _ c e Hc).
Qed.

Lemma changeCalls_no_undo (b : JsVal) (cs : list (string * JsVal)) :
  omap (λ e : string * ExecArg, if String.eqb e.1 "undo" then Some e.2 else None)
       (omap (changeCall b) cs) = [].
Proof.
  induction cs as [|c cs IH]; [reflexivity|].
  cbn [omap list_omap]. destruct (changeCall b c) as [e|] eqn:E; [|exact IH].
  cbn [omap list_omap]. rewrite (changeCall_not_undo b c e E). exact IH.
Qed.

(** ** The cancel listener *)

Lemma onCancel_eq (w : World) :
  onCancel w = _hideView (add_call (CExecute "undo" (ArgBatch (_batch w))) w).
Proof. reflexivity. Qed.

(** ** Callbacks as effects *)

(** Firing [change] from [set] is firing the change event. *)
Lemma notify_fireTimes (n : nat) (k : string) (v : JsVal) :
  notify n k v = fireTimes n (EvChange k v).
Proof. induction n as [|n IH]; [reflexivity|]. simpl. by rewrite IH. Qed.

Lemma changeListeners_attached (k : string) (v : JsVal) (w : World) :
  changeListeners w = attached (EvChange k v) w.
Proof. reflexivity. Qed.

Lemma perform_Esc (w : World) :
  perform EvEsc w = add_call CKeystrokeCancel (exec _hideView w).
Proof.
  unfold perform, exec. simpl. unfold onEsc. unfold_m.
  pose proof (hideView_ok w) as H.
  destruct (_hideView w) as [[[]|e] w1]; [reflexivity | discriminate H].
Qed.

Lemma perform_effect (ev : Event) (w : World) : effect w (perform ev w).
Proof.
  destruct ev as [| | | | tableSelected | | p v].
  - apply effect_show.
  - apply effect_hide.
  - unfold perform, exec. simpl. rewrite onCancel_eq.
    eapply effect_then; [apply effect_call | apply effect_hide]. reflexivity.
  - rewrite perform_Esc.
    eapply effect_then; [apply effect_hide | apply effect_call]. exact I.
  - unfold perform, exec. simpl. unfold onUiUpdate, _isViewVisible. unfold_m.
    destruct tableSelected; simpl; [|apply effect_hide].
    destruct (bool_decide _); [apply effect_call; exact I | apply effect_none].
  - unfold perform, exec. simpl. unfold onClickOutside, _isViewInBalloon. unfold_m.
    simpl. destruct (bool_decide _); [apply effect_hide | apply effect_none].
  - destruct (decide (p ∈ CELL_PROPERTIES)) as [H|H].
    + destruct (onChange_tracked p v w H) as (name & _ & E).
      unfold perform, exec. simpl. rewrite E. apply effect_call. reflexivity.
    + unfold perform, exec. simpl. rewrite onChange_untracked by exact H.
      apply effect_none.
Qed.

Lemma fireTimes_effect (n : nat) (ev : Event) (w : World) :
  effect w (exec (fireTimes n ev) w).
Proof.
  revert w. induction n as [|n IH]; intros w; [apply effect_none|].
  pose proof (perform_effect ev w) as H. unfold perform, exec in *.
  cbn [fireTimes]. unfold_m.
  destruct (handler ev w) as [[[]|e] w1]; simpl in *; [|exact H].
  eapply effect_then; [exact H | apply IH].
Qed.

Lemma fire_effect (ev : Event) (w : World) : effect w (fire ev w).
Proof. apply fireTimes_effect. Qed.

(** *** Invariants *)

Lemma batchOk_mono (n m : nat) (v : JsVal) : n ≤ m → batchOk n v → batchOk m v.
Proof. destruct v; simpl; auto. lia. Qed.

Lemma Hidden_not_Visible (w : World) : Hidden w → ¬ Visible w.
Proof.
  unfold Visible, Hidden. intros Hh Hv. apply Hh.
  destruct (_balloon w); [discriminate|]. injection Hv as ->. left.
Qed.

Lemma effect_wf (w w' : World) : effect w w' → wf w → wf w'.
Proof.
  induction 1 as [w | w | w | c w Hc | w1 w2 w3 _ IH1 _ IH2]; auto.
  - intros [Hb He]. destruct (decide (Visible w)) as [Hv|Hv].
    + unfold exec. rewrite showView_Visible by exact Hv. by split.
    + destruct (showView_batch w Hv) as [E1 E2].
      unfold wf. rewrite showView_executes, E1, E2. split; [simpl; lia|].
      apply Forall_app. split.
      * eapply Forall_impl; [exact He|]. intros e. apply batchOk_mono. lia.
      * eapply Forall_impl; [apply showExecutes_batch|].
        intros e ->. simpl. lia.
  - intros [Hb He]. destruct (hideView_batch w) as (E1 & E2 & _).
    unfold wf. rewrite hideView_executes, E1, E2. by split.
  - intros [Hb He]. split; [exact Hb|]. simpl. rewrite executes_app.
    apply Forall_app. split; [exact He|].
    destruct c; simpl; try constructor; [|constructor].
    simpl in *. rewrite Hc. exact Hb.
Qed.

Lemma effect_Hidden_or_Visible (w w' : World) :
  effect w w' → Hidden w ∨ Visible w → Hidden w' ∨ Visible w'.
Proof.
  induction 1 as [w | w | w | c w Hc | w1 w2 w3 _ IH1 _ IH2]; auto.
  - intros [Hh|Hv].
    + right. by apply showView_shows.
    + right. unfold exec. by rewrite showView_Visible.
  - intros _. left. apply hideView_hides.
Qed.

Lemma effect_listeners (w w' : World) (l : Listener) :
  effect w w' →
  l ≠ (ByPlugin, EmEditorUi, "update") →
  l ≠ (ByPlugin, EmBalloon, "change:visibleView") →
  filter (λ x, x = l) (listeners w') = filter (λ x, x = l) (listeners w).
Proof.
  intros H H1 H2.
  induction H as [w | w | w | c w Hc | w1 w2 w3 _ IH1 _ IH2]; auto.
  - by destruct (showView_listeners w) as [-> _].
  - by apply hideView_listeners.
  - congruence.
Qed.

Lemma effect_commands (w w' : World) : effect w w' → commands w' = commands w.
Proof.
  induction 1 as [w | w | w | c w Hc | w1 w2 w3 _ IH1 _ IH2]; auto.
  - by destruct (showView_listeners w) as [_ ->].
  - by destruct (hideView_batch w) as (_ & _ & ->).
  - congruence.
Qed.

Lemma initial_wf (cmds : gmap string JsVal) : wf (initial cmds).
Proof. split; [exact I | constructor]. Qed.

Lemma initial_Hidden (cmds : gmap string JsVal) : Hidden (initial cmds).
Proof. unfold Hidden. simpl. apply not_elem_of_nil. Qed.

Lemma keptListener_ne (ev : Event) :
  keptListener ev →
  listenerOf ev ≠ (ByPlugin, EmEditorUi, "update") ∧
  listenerOf ev ≠ (ByPlugin, EmBalloon, "change:visibleView").
Proof. destruct ev; simpl; intros H; try done. Qed.

Lemma createButton_world (w : World) :
  exec createButton w
    = set_listeners (λ ls, ls ++ [(ByPlugin, EmButton (buttons w), "execute")]) w.
Proof. reflexivity. Qed.

Lemma createButton_attached (ev : Event) (w : World) :
  keptListener ev ∨ (∃ b, ev = EvUiUpdate b) →
  attached ev (exec createButton w) = attached ev w.
Proof.
  intros H. rewrite createButton_world. unfold attached. simpl.
  rewrite filter_app, filter_cons_False, filter_nil, app_nil_r; [done|].
  destruct H as [H|[b ->]]; [destruct ev; try done|]; by intros [=].
Qed.

Lemma reachable_invariant (cmds : gmap string JsVal) (w : World) :
  reachable cmds w →
  wf w ∧ (Hidden w ∨ Visible w) ∧ commands w = cmds ∧
  ∀ ev, keptListener ev → attached ev w = 1.
Proof.
  induction 1 as [|ev w _ (Hwf & Hhv & Hc & Hl)|w _ (Hwf & Hhv & Hc & Hl)].
  - split; [apply initial_wf|]. split; [left; apply initial_Hidden|].
    split; [reflexivity|]. intros ev Hk. destruct ev; done.
  - pose proof (fire_effect ev w) as He.
    split; [by eapply effect_wf|]. split; [by eapply effect_Hidden_or_Visible|].
    split; [by rewrite (effect_commands _ _ He)|].
    intros ev' Hk. unfold attached in *.
    destruct (keptListener_ne ev' Hk) as [H1 H2].
    rewrite (effect_listeners _ _ _ He H1 H2). by apply Hl.
  - rewrite createButton_world. split; [exact Hwf|]. split; [exact Hhv|].
    split; [exact Hc|]. intros ev Hk.
    rewrite <- createButton_world, createButton_attached by (by left). by apply Hl.
Qed.

Lemma fire_once (ev : Event) (w : World) :
  attached ev w = 1 → fire ev w = perform ev w.
Proof.
  intros H. unfold fire, perform, exec. rewrite H. cbn [fireTimes]. unfold_m.
  by destruct (handler ev w) as [[[]|e] w1].
Qed.

(** In the states the plugin reaches, firing a sequence of events whose
    listeners are kept runs their callbacks one after the other. *)
Lemma reachable_run (cmds : gmap string JsVal) (evs : list Event) (w : World) :
  reachable cmds w → Forall keptListener evs →
  foldl (λ w ev, fire ev w) w evs = run evs w ∧ reachable cmds (run evs w).
Proof.
  intros Hr Hk. revert w Hr. induction Hk as [|ev evs Hev _ IH]; intros w Hr.
  - by split.
  - cbn [foldl run].
    assert (E : fire ev w = perform ev w).
    { apply fire_once. by apply (reachable_invariant cmds w Hr). }
    rewrite <- E. apply IH. by constructor.
Qed.

Lemma foldl_insert_lookup (f : string → JsVal) (props : list string)
    (d : gmap string JsVal) (p : string) :
  foldl (λ d p, <[p := f p]> d) d props !! p
    = if decide (p ∈ props) then Some (f p) else d !! p.
Proof.
  revert d. induction props as [|q props IH]; intros d; cbn [foldl].
  - rewrite decide_False by apply not_elem_of_nil. reflexivity.
  - rewrite IH. destruct (decide (p ∈ props)) as [Hin|Hin].
    + rewrite decide_True by (by right). reflexivity.
    + destruct (decide (p = q)) as [->|Hne].
      * rewrite decide_True by left. apply lookup_insert_eq.
      * rewrite decide_False by (rewrite elem_of_cons; tauto).
        by apply lookup_insert_ne.
Qed.

Lemma fillRecord_lookup (cmds data : gmap string JsVal) (p : string) (v : JsVal) :
  fillRecord cmds = Some data → p ∈ CELL_PROPERTIES →
  data !! p = Some v → formValue cmds p = Some v.
Proof.
  intros Hr Hp Hv. apply fillRecord_Some in Hr as [Hs ->].
  rewrite (foldl_insert_lookup (λ p, default JUndefined (formValue cmds p))) in Hv.
  rewrite decide_True in Hv by exact Hp.
  rewrite Forall_forall in Hs. destruct (Hs p Hp) as [x Hx].
  rewrite Hx in Hv |- *. exact Hv.
Qed.

Lemma showExecutes_upToDate (w : World) : formUpToDate w → showExecutes w = [].
Proof.
  intros H. unfold showExecutes. destruct (decide (Visible w)); [reflexivity|].
  destruct (fillRecord (commands w)) as [data|] eqn:Hr; [|reflexivity].
  apply setExecutes_unchanged. intros k v Hk Hv.
  apply H; [exact Hk|]. by eapply fillRecord_lookup.
Qed.

Lemma changeCall_Some (b : JsVal) (c : string * JsVal) (e : string * ExecArg) :
  changeCall b c = Some e →
  c.1 ∈ CELL_PROPERTIES ∧ propertyNameToCommandName c.1 = Some e.1 ∧
  e.2 = ArgPayload c.2 b.
Proof.
  unfold changeCall, includes. destruct (decide (c.1 ∈ CELL_PROPERTIES)) as [H|H].
  - rewrite bool_decide_eq_true_2 by exact H.
    destruct (propertyNameToCommandName c.1) as [name|]; [|discriminate].
    simpl. by intros [= <-].
  - rewrite bool_decide_eq_false_2 by exact H. discriminate.
Qed.

Lemma perform_Cancel (w : World) :
  perform EvCancel w = exec _hideView (add_call (CExecute "undo" (ArgBatch (_batch w))) w).
Proof. reflexivity. Qed.

Lemma perform_Cancel_executes (w : World) :
  executes (calls (perform EvCancel w))
    = executes (calls w) ++ [("undo", ArgBatch (_batch w))].
Proof.
  rewrite perform_Cancel, hideView_executes. simpl. by rewrite executes_app.
Qed.

Lemma elem_of_undos (a : ExecArg) (cs : list Call) :
  ("undo", a) ∈ executes cs → a ∈ undos cs.
Proof.
  intros H. unfold undos. apply list_elem_of_omap. exists ("undo", a). by split.
Qed.

(** * The claims *)

(** ** toArray *)

(** C10. [toArray] returns its argument itself, allocating nothing, when the
    argument is an array; for any other argument it returns a new array
    whose only element is the argument, and a new empty array when the
    argument is missing or [undefined].  Consequently applying [toArray] to
    its own result returns that result and allocates nothing:
    [toArray(toArray(x)) = toArray(x)]. *)
Theorem toArray_idempotent :
  (∀ r rest h, ToArray.toArray (JArr r :: rest) h = (JArr r, h)) ∧
  (∀ args h,
     isArray (ToArray.arg0 args) = false → ToArray.arg0 args ≠ JUndefined →
     ToArray.toArray args h = (JArr (length h), h ++ [[ToArray.arg0 args]]) ∧
     ToArray.elements (JArr (length h)) (h ++ [[ToArray.arg0 args]])
       = Some [ToArray.arg0 args]) ∧
  (∀ args h,
     ToArray.arg0 args = JUndefined →
     ToArray.toArray args h = (JArr (length h), h ++ [[]]) ∧
     ToArray.elements (JArr (length h)) (h ++ [[]]) = Some []) ∧
  (∀ x h,
     ToArray.toArray [(ToArray.toArray [x] h).1] (ToArray.toArray [x] h).2
       = ToArray.toArray [x] h).
Proof.
  split; [|split; [|split]].
  - intros r rest h. reflexivity.
  - intros args h Harr Hundef. unfold ToArray.toArray, ToArray.elements.
    destruct (ToArray.arg0 args); try discriminate; try congruence;
      (split; [reflexivity | by apply list_lookup_middle]).
  - intros args h H. unfold ToArray.toArray, ToArray.elements. rewrite H.
    split; [reflexivity | by apply list_lookup_middle].
  - intros x h. unfold ToArray.toArray, ToArray.arg0. simpl.
    destruct x; reflexivity.
Qed.

Lemma toArray_idempotent_witness :
  ToArray.toArray [JNum 3] [] = (JArr 0, [[JNum 3]]) ∧
  ToArray.toArray [] [] = (JArr 0, [[]]) ∧
  ToArray.toArray [JArr 0] [[JNum 3]] = (JArr 0, [[JNum 3]]).
Proof.
  split; [|split].
  - apply (proj1 (proj2 toArray_idempotent) [JNum 3] []);
      [reflexivity | discriminate].
  - apply (proj1 (proj2 (proj2 toArray_idempotent)) [] []). reflexivity.
  - apply (proj1 toArray_idempotent 0 [] [[JNum 3]]).
Defined.

(** ** The name mapping *)

(** C4. On the seven tracked property names [propertyNameToCommandName]
    returns a name (it never throws), namely ['tableCell'] followed by the
    property name with its first letter in upper case, so that
    ['borderWidth'] gives ['tableCellBorderWidth'], and two tracked
    properties with the same command name are the same property. *)
Theorem propertyNameToCommandName_injective :
  (∀ p, p ∈ CELL_PROPERTIES →
     ∃ c rest, p = String c rest ∧
       propertyNameToCommandName p
         = Some ("tableCell" +:+ String (toUpperCase c) rest)) ∧
  map propertyNameToCommandName CELL_PROPERTIES =
    [ Some "tableCellBorderStyle"; Some "tableCellBorderColor";
      Some "tableCellBorderWidth"; Some "tableCellPadding";
      Some "tableCellBackgroundColor"; Some "tableCellHorizontalAlignment";
      Some "tableCellVerticalAlignment" ] ∧
  (∀ p q, p ∈ CELL_PROPERTIES → q ∈ CELL_PROPERTIES →
     propertyNameToCommandName p = propertyNameToCommandName q → p = q).
Proof.
  split; [|split].
  - exact tracked_name.
  - reflexivity.
  - intros p q Hp Hq. tracked Hp; tracked Hq; simpl; intros E;
      solve [reflexivity | discriminate E].
Qed.

Lemma propertyNameToCommandName_injective_witness :
  propertyNameToCommandName "borderWidth" = Some "tableCellBorderWidth" ∧
  ("borderWidth" ∈ CELL_PROPERTIES → "padding" ∈ CELL_PROPERTIES →
   propertyNameToCommandName "borderWidth" = propertyNameToCommandName "padding" →
   "borderWidth" = "padding").
Proof.
  split.
  - destruct (proj1 propertyNameToCommandName_injective "borderWidth")
      as (c & rest & Hp & E).
    + unfold CELL_PROPERTIES. do 2 right. left.
    + injection Hp as <- <-. exact E.
  - apply (proj2 (proj2 propertyNameToCommandName_injective)).
Defined.

(** ** The form and the commands *)

Lemma fire_fixed (ev : Event) (w : World) : perform ev w = w → fire ev w = w.
Proof.
  intros H. unfold fire, perform, exec in *.
  induction (attached ev w) as [|n IH]; [reflexivity|].
  cbn [fireTimes]. unfold_m.
  destruct (handler ev w) as [[[]|e] w1]; simpl in *; subst w1; [exact IH | reflexivity].
Qed.

(** C8. A change of a property that is not one of the seven tracked cell
    properties is ignored: the callback returns at once, nothing is
    executed and the world (the log of calls included) stays as it was. *)
Theorem change_untracked_ignored (p : string) (v : JsVal) (w : World) :
  p ∉ CELL_PROPERTIES →
  onChange p v w = (Ok tt, w) ∧
  perform (EvChange p v) w = w ∧
  fire (EvChange p v) w = w ∧
  executes (calls (fire (EvChange p v) w)) = executes (calls w).
Proof.
  intros H.
  assert (Hp : perform (EvChange p v) w = w).
  { unfold perform, exec. simpl. by rewrite onChange_untracked. }
  pose proof (fire_fixed _ _ Hp) as Hf.
  rewrite Hf. auto using onChange_untracked.
Qed.

Lemma change_untracked_ignored_witness :
  fire (EvChange "isFocused" (JBool true)) (initial exampleCommands)
    = initial exampleCommands.
Proof.
  apply (change_untracked_ignored "isFocused" (JBool true) (initial exampleCommands)).
  unfold CELL_PROPERTIES. intros H.
  repeat (apply elem_of_cons in H as [H|H]; [discriminate H|]).
  by apply elem_of_nil in H.
Defined.

(** C7. The submit action only hides the form: afterwards the form is
    Hidden, the [editor.execute] calls are those made before (no undo among
    them), and the batch is still the one of the session. *)
Theorem submit_hides_without_undo (w : World) :
  onSubmit w = _hideView w ∧
  Hidden (perform EvSubmit w) ∧
  executes (calls (perform EvSubmit w)) = executes (calls w) ∧
  undos (calls (perform EvSubmit w)) = undos (calls w) ∧
  _batch (perform EvSubmit w) = _batch w.
Proof.
  unfold perform. simpl. unfold onSubmit, undos.
  rewrite hideView_executes.
  repeat split; [apply hideView_hides | apply hideView_batch].
Qed.

(** C1, as stated, fails: in the scenario, starting from the editor with a
    form that was never set, showing the form sets its seven fields, the
    change listener executes the seven commands, and nine calls come before
    the undo. *)
Lemma cancel_session_counterexample :
  Hidden exampleEditor ∧
  executes (calls exampleEditor) = [] ∧
  executes (calls (run exampleSession exampleEditor))
    ≠ [ ("tableCellBorderWidth", ArgPayload (JStr "2px") (JBatch 0));
        ("tableCellPadding", ArgPayload (JStr "5px") (JBatch 0));
        ("undo", ArgBatch (JBatch 0)) ] ∧
  length (executes (calls (run exampleSession exampleEditor))) = 10.
Proof.
  split; [|split; [reflexivity|split]].
  - unfold Hidden. simpl. apply not_elem_of_nil.
  - intros H. apply (f_equal length) in H. vm_compute in H. discriminate.
  - vm_compute. reflexivity.
Qed.

(** C1, amended. From a Hidden form, showing it, then any number of changes
    of tracked properties, then cancel: the [editor.execute] calls added to
    the log are, in this order, the calls that showing the form leads to
    (setting the form fires a change for every tracked field whose value it
    changes, and the change listener executes the field's command), one call
    per change, and a single ['undo'].  All of them carry the batch created
    by the show; the undo is the only one added and the form ends Hidden.
    For the changes borderWidth 2px and padding 5px the last calls are
    tableCellBorderWidth, tableCellPadding and undo, and they are the only
    ones when setting the form changes none of its fields.  With the
    commands registered, the calls of the show are those of [setExecutes]
    for the record that fills the form. *)
Theorem cancel_session (w : World) (cs : list (string * JsVal)) :
  Hidden w →
  Forall (λ c, c.1 ∈ CELL_PROPERTIES) cs →
  let b := _batch (perform EvButtonExecute w) in
  let w' := run (EvButtonExecute :: changes cs ++ [EvCancel]) w in
  b = JBatch (batches w) ∧
  (∃ es,
     Forall2 (λ c e, propertyNameToCommandName c.1 = Some e.1 ∧
                     e.2 = ArgPayload c.2 b) cs es ∧
     executes (calls w')
       = executes (calls w) ++ showExecutes w ++ es ++ [("undo", ArgBatch b)]) ∧
  Forall (λ e : string * ExecArg,
            ∃ c, c.1 ∈ CELL_PROPERTIES ∧
                 propertyNameToCommandName c.1 = Some e.1 ∧
                 e.2 = ArgPayload c.2 b) (showExecutes w) ∧
  undos (calls w') = undos (calls w) ++ [ArgBatch b] ∧
  Hidden w' ∧
  (cs = [("borderWidth", JStr "2px"); ("padding", JStr "5px")] →
   executes (calls w') = executes (calls w) ++ showExecutes w ++
     [ ("tableCellBorderWidth", ArgPayload (JStr "2px") b);
       ("tableCellPadding", ArgPayload (JStr "5px") b);
       ("undo", ArgBatch b) ]) ∧
  (∀ data, fillRecord (commands w) = Some data →
     showExecutes w
       = setExecutes (changeListeners w) b (formOf (calls w)) CELL_PROPERTIES data) ∧
  (formUpToDate w → showExecutes w = []).
Proof.
  intros Hh Hcs b w'.
  pose proof (Hidden_not_Visible w Hh) as Hnv.
  destruct (showView_batch w Hnv) as [Hb _].
  set (w1 := perform EvButtonExecute w) in *.
  assert (He1 : executes (calls w1) = executes (calls w) ++ showExecutes w)
    by apply showView_executes.
  destruct (run_changes cs w1) as (_ & Hb2 & _ & _ & _ & He2).
  set (w2 := run (changes cs) w1) in *.
  assert (Hw' : w' = exec _hideView (add_call (CExecute "undo" (ArgBatch b)) w2)).
  { unfold w'. change (EvButtonExecute :: changes cs ++ [EvCancel])
      with ([EvButtonExecute] ++ changes cs ++ [EvCancel]).
    rewrite !run_app. fold w1. cbn [run foldl]. fold w1. unfold w2.
    unfold perform at 1, exec. cbn [handler]. rewrite onCancel_eq.
    fold (run (changes cs) w1). fold w2. rewrite Hb2. reflexivity. }
  assert (Hex : executes (calls w') =
     executes (calls w) ++ showExecutes w ++ omap (changeCall b) cs
       ++ [("undo", ArgBatch b)]).
  { rewrite Hw', hideView_executes. simpl. rewrite executes_app, He2, He1.
    rewrite <- !app_assoc. reflexivity. }
  split; [exact Hb|]. split; [|split; [|split; [|split; [|split; [|split]]]]].
  - exists (omap (changeCall b) cs). split; [by apply changeCalls_tracked | exact Hex].
  - eapply Forall_impl; [apply showExecutes_changeCalls|].
    intros e [c Hc]. exists c.
    replace b with (JBatch (batches w)) by (symmetry; exact Hb).
    by apply changeCall_Some.
  - unfold undos. rewrite Hex, !omap_app, changeCalls_no_undo, showExecutes_no_undo.
    reflexivity.
  - rewrite Hw'. apply hideView_hides.
  - intros ->. rewrite Hex. reflexivity.
  - intros data Hr. unfold showExecutes.
    rewrite decide_False by exact Hnv. rewrite Hr.
    by replace b with (JBatch (batches w)) by (symmetry; exact Hb).
  - apply showExecutes_upToDate.
Qed.

Lemma cancel_session_witness :
  executes (calls (run (EvButtonExecute
                          :: changes [("borderWidth", JStr "2px"); ("padding", JStr "5px")]
                          ++ [EvCancel]) (initial exampleCommands)))
    = executes (calls (initial exampleCommands)) ++
      showExecutes (initial exampleCommands) ++
      [ ("tableCellBorderWidth",
         ArgPayload (JStr "2px") (_batch (perform EvButtonExecute (initial exampleCommands))));
        ("tableCellPadding",
         ArgPayload (JStr "5px") (_batch (perform EvButtonExecute (initial exampleCommands))));
        ("undo", ArgBatch (_batch (perform EvButtonExecute (initial exampleCommands)))) ].
Proof.
  assert (Hh : Hidden (initial exampleCommands)).
  { unfold Hidden. simpl. apply not_elem_of_nil. }
  assert (Hcs : Forall (λ c : string * JsVal, c.1 ∈ CELL_PROPERTIES)
                  [("borderWidth", JStr "2px"); ("padding", JStr "5px")]).
  { repeat constructor. }
  destruct (cancel_session (initial exampleCommands)
              [("borderWidth", JStr "2px"); ("padding", JStr "5px")] Hh Hcs)
    as (_ & _ & _ & _ & _ & He & _ & _).
  exact (He eq_refl).
Defined.

Lemma perform_undos (ev : Event) (w : World) :
  ev ≠ EvCancel → undos (calls (perform ev w)) = undos (calls w).
Proof.
  intros Hev. unfold undos.
  destruct ev as [| | | | tableSelected | | p v]; try done.
  - unfold perform. cbn [handler].
    rewrite showView_executes, omap_app, showExecutes_no_undo. apply app_nil_r.
  - unfold perform. cbn [handler]. unfold onSubmit. by rewrite hideView_executes.
  - rewrite perform_Esc. simpl. rewrite executes_app, hideView_executes.
    simpl. by rewrite app_nil_r.
  - destruct tableSelected.
    + unfold perform, exec. cbn [handler]. unfold onUiUpdate, _isViewVisible.
      unfold_m. simpl. destruct (bool_decide _); [|reflexivity].
      simpl. rewrite executes_app. simpl. by rewrite app_nil_r.
    + unfold perform. cbn [handler]. unfold onUiUpdate. simpl.
      by rewrite hideView_executes.
  - unfold perform, exec. cbn [handler]. unfold onClickOutside, _isViewInBalloon.
    unfold_m. simpl. destruct (bool_decide _); [|reflexivity].
    fold (exec _hideView w). by rewrite hideView_executes.
  - pose proof (perform_change (p, v) w) as H. simpl in H.
    destruct H as (_ & _ & _ & _ & _ & ->).
    rewrite omap_app. destruct (changeCall (_batch w) (p, v)) as [e|] eqn:E; simpl.
    + rewrite (changeCall_not_undo _ _ _ E). apply app_nil_r.
    + apply app_nil_r.
Qed.

(** C2, as stated, fails: with the form open, Esc executes no ['undo'] for
    the current batch, whereas the cancel action does. *)
Lemma esc_undo_counterexample :
  Attached exampleOpen ∧
  (("undo", ArgBatch (_batch exampleOpen))
     ∉ executes (calls (perform EvEsc exampleOpen))) ∧
  undos (calls (perform EvEsc exampleOpen)) = [] ∧
  undos (calls (perform EvCancel exampleOpen)) = [ArgBatch (JBatch 0)].
Proof.
  assert (He : undos (calls (perform EvEsc exampleOpen)) = []) by (vm_compute; reflexivity).
  split; [|split; [|split]].
  - unfold Attached.
    replace (_balloon exampleOpen) with [FormView] by (vm_compute; reflexivity).
    left.
  - intros Hin. apply elem_of_undos in Hin. rewrite He in Hin.
    by apply elem_of_nil in Hin.
  - exact He.
  - vm_compute. reflexivity.
Qed.

(** C2, amended. The Esc keystroke on the focused form only hides the form
    and cancels the keystroke event: afterwards the form is Hidden, no
    [editor.execute] call (hence no undo) has been added, and the batch is
    still the one of the session.  Of all the callbacks only the one of the
    form's cancel action executes an undo: it executes ['undo'] with the
    current batch and then hides the form. *)
Theorem esc_hides_without_undo (w : World) :
  perform EvEsc w = add_call CKeystrokeCancel (exec _hideView w) ∧
  Hidden (perform EvEsc w) ∧
  executes (calls (perform EvEsc w)) = executes (calls w) ∧
  undos (calls (perform EvEsc w)) = undos (calls w) ∧
  _batch (perform EvEsc w) = _batch w ∧
  perform EvCancel w
    = exec _hideView (add_call (CExecute "undo" (ArgBatch (_batch w))) w) ∧
  executes (calls (perform EvCancel w))
    = executes (calls w) ++ [("undo", ArgBatch (_batch w))] ∧
  undos (calls (perform EvCancel w)) = undos (calls w) ++ [ArgBatch (_batch w)] ∧
  Hidden (perform EvCancel w) ∧
  (∀ ev, ev ≠ EvCancel → undos (calls (perform ev w)) = undos (calls w)).
Proof.
  assert (He : executes (calls (perform EvEsc w)) = executes (calls w)).
  { rewrite perform_Esc. simpl. rewrite executes_app, hideView_executes.
    simpl. apply app_nil_r. }
  split; [apply perform_Esc|]. split; [rewrite perform_Esc; apply (hideView_hides w)|].
  split; [exact He|]. split; [unfold undos; by rewrite He|].
  split; [rewrite perform_Esc; apply hideView_batch|].
  split; [reflexivity|]. split; [apply perform_Cancel_executes|].
  split; [unfold undos; by rewrite perform_Cancel_executes, omap_app|].
  split; [rewrite perform_Cancel; apply hideView_hides|].
  intros ev. apply perform_undos.
Qed.

Lemma esc_hides_without_undo_witness :
  undos (calls (perform EvEsc exampleOpen)) = undos (calls exampleOpen).
Proof.
  apply (proj2 (proj2 (proj2 (proj2 (proj2 (proj2 (proj2 (proj2 (proj2
           (esc_hides_without_undo exampleOpen)))))))))).
  discriminate.
Defined.



(** C5, amended. A [_showView] that finds the view visible returns at
    once.  After a first call on a form that was Hidden or visible the view
    is visible, so a second call right after the first is such a call: the
    world after two calls is the world after one, the form is still
    attached, no batch was created and the form was not set again. *)
Theorem showView_idempotent (w : World) :
  let w1 := perform EvButtonExecute w in
  (Hidden w ∨ Visible w → Visible w1) ∧
  (Visible w1 →
     Attached w1 ∧
     _showView w1 = (Ok tt, w1) ∧
     run [EvButtonExecute; EvButtonExecute] w = run [EvButtonExecute] w ∧
     _batch (perform EvButtonExecute w1) = _batch w1 ∧
     batches (perform EvButtonExecute w1) = batches w1 ∧
     calls (perform EvButtonExecute w1) = calls w1).
Proof.
  intros w1. split.
  { intros [Hh|Hv]; [by apply showView_shows|].
    unfold w1, perform, exec. cbn [handler]. by rewrite showView_Visible. }
  intros Hv.
  assert (E : _showView w1 = (Ok tt, w1)) by (by apply showView_Visible).
  assert (P : perform EvButtonExecute w1 = w1).
  { unfold perform, exec. cbn [handler]. by rewrite E. }
  split.
  { unfold Attached. unfold Visible in Hv.
    destruct (_balloon w1); [discriminate|]. injection Hv as ->. left. }
  split; [exact E|]. split.
  { cbn [run foldl]. fold w1. exact P. }
  by rewrite P.
Qed.

Lemma showView_idempotent_witness :
  run [EvButtonExecute; EvButtonExecute] (initial exampleCommands)
    = run [EvButtonExecute] (initial exampleCommands).
Proof.
  destruct (showView_idempotent (initial exampleCommands)) as [Hvis Hidem].
  apply Hidem. apply Hvis.
  left. unfold Hidden. vm_compute. apply not_elem_of_nil.
Defined.

(** C5, as stated, fails: when another view covers the attached form, the
    form is in the balloon but not visible, and a second [_showView] right
    after the first creates a batch again, so two calls are not one. *)
Lemma showView_twice_counterexample :
  Attached exampleCovered ∧ ¬ Visible exampleCovered ∧
  run [EvButtonExecute; EvButtonExecute] exampleCovered
    ≠ run [EvButtonExecute] exampleCovered ∧
  batches exampleCovered = 1 ∧
  batches (run [EvButtonExecute] exampleCovered) = 2 ∧
  batches (run [EvButtonExecute; EvButtonExecute] exampleCovered) = 3.
Proof.
  split; [|split; [|split; [|repeat split]]].
  - unfold Attached.
    replace (_balloon exampleCovered) with [OtherView 0; FormView]
      by (vm_compute; reflexivity).
    right. left.
  - unfold Visible.
    replace (_balloon exampleCovered) with [OtherView 0; FormView]
      by (vm_compute; reflexivity).
    discriminate.
  - intros H. apply (f_equal batches) in H. vm_compute in H. discriminate.
Qed.

Lemma formValue_weaken (cmds cmds' : gmap string JsVal) (p : string) (x : JsVal) :
  cmds ⊆ cmds' → formValue cmds p = Some x → formValue cmds' p = Some x.
Proof.
  intros Hsub. unfold formValue.
  destruct (propertyNameToCommandName p) as [name|]; [|discriminate].
  simpl. destruct (cmds !! name) as [v|] eqn:Hv; [|discriminate].
  by rewrite (lookup_weaken _ _ _ _ Hv Hsub).
Qed.

(** C6. When every tracked property has its command registered, the form
    is set once, with a record that has the seven tracked properties as
    keys; each holds the command's value, or the property's default when
    that value is falsy.  The defaults are 'none', 'left' and 'middle' for
    borderStyle, horizontalAlignment and verticalAlignment, and the empty
    string for the other tracked properties.  With the commands of the
    scenario the record is the one of the scenario.  The one [set] call is
    followed in the log only by what the change listener executes for the
    fields that the call changes, and by nothing when it changes none. *)
Theorem fill_substitutes_defaults (w : World) :
  Forall (λ p, ∃ name, propertyNameToCommandName p = Some name ∧
                       is_Some (commands w !! name)) CELL_PROPERTIES →
  ∃ data,
    _fillViewFormFromCommandValues w
      = (Ok tt, log_calls
                  (CViewSet data ::
                   (execCall <$> setExecutes (changeListeners w) (_batch w)
                                             (formOf (calls w)) CELL_PROPERTIES data)) w) ∧
    calls (exec _fillViewFormFromCommandValues w)
      = calls w ++ CViewSet data ::
          (execCall <$> setExecutes (changeListeners w) (_batch w)
                                    (formOf (calls w)) CELL_PROPERTIES data) ∧
    (formUpToDate w →
     _fillViewFormFromCommandValues w = (Ok tt, add_call (CViewSet data) w) ∧
     calls (exec _fillViewFormFromCommandValues w) = calls w ++ [CViewSet data]) ∧
    (∀ p, is_Some (data !! p) ↔ p ∈ CELL_PROPERTIES) ∧
    (∀ p name v, p ∈ CELL_PROPERTIES →
       propertyNameToCommandName p = Some name → commands w !! name = Some v →
       data !! p = Some (if falsy v then defaultValue p else v)) ∧
    defaultValue "borderStyle" = JStr "none" ∧
    defaultValue "horizontalAlignment" = JStr "left" ∧
    defaultValue "verticalAlignment" = JStr "middle" ∧
    (∀ p, p ∈ CELL_PROPERTIES → p ≠ "borderStyle" →
       p ≠ "horizontalAlignment" → p ≠ "verticalAlignment" →
       defaultValue p = JStr "") ∧
    (exampleCommands ⊆ commands w → data = exampleRecord).
Proof.
  intros Hreg.
  assert (Hsome : Forall (λ p, is_Some (formValue (commands w) p)) CELL_PROPERTIES).
  { eapply Forall_impl; [exact Hreg|]. intros p (name & E & [v Hv]).
    unfold formValue. rewrite E. simpl. rewrite Hv. simpl. eauto. }
  set (f := λ p, default JUndefined (formValue (commands w) p)).
  set (data := foldl (λ (d : gmap string JsVal) p, <[p := f p]> d) ∅ CELL_PROPERTIES).
  assert (Hr : fillRecord (commands w) = Some data).
  { apply fillRecord_Some. by split. }
  exists data.
  assert (E : _fillViewFormFromCommandValues w =
    (Ok tt, log_calls
              (CViewSet data ::
               (execCall <$> setExecutes (changeListeners w) (_batch w)
                                         (formOf (calls w)) CELL_PROPERTIES data)) w)).
  { destruct (fill_cases w) as [(e & Hn & _) | (data' & Hr' & _ & E)]; [congruence|].
    rewrite E. congruence. }
  split; [exact E|]. split; [unfold exec; by rewrite E|]. split.
  { intros Hup.
    assert (H0 : setExecutes (changeListeners w) (_batch w) (formOf (calls w))
                   CELL_PROPERTIES data = []).
    { apply setExecutes_unchanged. intros k v Hk Hv.
      apply Hup; [exact Hk|]. by eapply fillRecord_lookup. }
    unfold exec. rewrite E, H0. by split. }
  split; [|split; [|repeat split]].
  - intros p. unfold data. rewrite foldl_insert_lookup.
    destruct (decide (p ∈ CELL_PROPERTIES)) as [H|H].
    + split; [done | eauto].
    + rewrite lookup_empty. split; [by intros [? ?] | done].
  - intros p name v Hp En Hv. unfold data. rewrite foldl_insert_lookup.
    rewrite decide_True by exact Hp. unfold f, formValue.
    rewrite En. simpl. rewrite Hv. reflexivity.
  - intros p Hp H1 H2 H3. tracked Hp; solve [reflexivity | congruence].
  - intros Hsub.
    assert (Hf : ∀ p, p ∈ CELL_PROPERTIES →
                   f p = default JUndefined (formValue exampleCommands p)).
    { intros p Hp. unfold f.
      assert (Hex : is_Some (formValue exampleCommands p)).
      { tracked Hp; vm_compute; eauto. }
      destruct Hex as [x Hx].
      by rewrite Hx, (formValue_weaken _ _ _ _ Hsub Hx). }
    apply map_eq. intros p. unfold data. rewrite foldl_insert_lookup.
    destruct (decide (p ∈ CELL_PROPERTIES)) as [Hp|Hp].
    + rewrite (Hf p Hp). tracked Hp; reflexivity.
    + symmetry. apply not_elem_of_list_to_map_1. simpl.
      intros Hin. apply Hp. exact Hin.
Qed.

Lemma fill_substitutes_defaults_witness :
  ∃ data,
    (_fillViewFormFromCommandValues (initial exampleCommands)).1 = Ok tt ∧
    data = exampleRecord.
Proof.
  assert (Hreg : Forall (λ p, ∃ name, propertyNameToCommandName p = Some name ∧
             is_Some (commands (initial exampleCommands) !! name)) CELL_PROPERTIES).
  { repeat constructor; eexists; (split; [reflexivity | vm_compute; eauto]). }
  destruct (fill_substitutes_defaults (initial exampleCommands) Hreg)
    as (data & E & _ & _ & _ & _ & _ & _ & _ & _ & Hd).
  exists data. split; [by rewrite E|]. apply Hd. reflexivity.
Defined.

(** C9. [init] attaches the view's change listener once; [_hideView] does
    not detach it, and it is attached once in every state the plugin
    reaches.  With the listener attached, a change of a tracked property
    executes the property's command with the new value and the current
    batch, whether the form is attached or Hidden; right after [init] the
    form is Hidden, the batch is [null], and the command is executed with
    that [null] batch. *)
Theorem change_listener_always_attached (cmds : gmap string JsVal) :
  (∀ p v, attached (EvChange p v) (initial cmds) = 1) ∧
  (∀ w p v, attached (EvChange p v) (exec _hideView w) = attached (EvChange p v) w) ∧
  (∀ w p v, reachable cmds w → attached (EvChange p v) w = 1) ∧
  (∀ w p v name,
     attached (EvChange p v) w = 1 →
     p ∈ CELL_PROPERTIES → propertyNameToCommandName p = Some name →
     fire (EvChange p v) w = add_call (CExecute name (ArgPayload v (_batch w))) w) ∧
  Hidden (initial cmds) ∧ _batch (initial cmds) = JNull ∧
  (∀ p v name,
     p ∈ CELL_PROPERTIES → propertyNameToCommandName p = Some name →
     fire (EvChange p v) (initial cmds)
       = add_call (CExecute name (ArgPayload v JNull)) (initial cmds)).
Proof.
  assert (Hfire : ∀ w p v name,
     attached (EvChange p v) w = 1 →
     p ∈ CELL_PROPERTIES → propertyNameToCommandName p = Some name →
     fire (EvChange p v) w = add_call (CExecute name (ArgPayload v (_batch w))) w).
  { intros w p v name Ha Hp En. unfold fire. rewrite Ha.
    destruct (onChange_tracked p v w Hp) as (name' & En' & E).
    unfold exec. cbn [fireTimes handler]. unfold_m. rewrite E. simpl. congruence. }
  split; [reflexivity|]. split; [|split; [|split; [|split; [|split]]]].
  - intros w p v. unfold attached. by rewrite hideView_listeners.
  - intros w p v Hr. by apply (reachable_invariant cmds w Hr).
  - exact Hfire.
  - apply initial_Hidden.
  - reflexivity.
  - intros p v name Hp En. by apply Hfire.
Qed.

Lemma change_listener_always_attached_witness :
  executes (calls (fire (EvChange "padding" (JStr "5px")) (initial exampleCommands)))
    = [("tableCellPadding", ArgPayload (JStr "5px") JNull)].
Proof.
  rewrite (proj2 (proj2 (proj2 (proj2 (proj2 (proj2
            (change_listener_always_attached exampleCommands))))))
            "padding" (JStr "5px") "tableCellPadding").
  - reflexivity.
  - unfold CELL_PROPERTIES. do 3 right. left.
  - reflexivity.
Defined.

(** * Further properties of the plugin and of [toArray] *)

(** ** Hiding *)

Lemma hideView_calls (w : World) :
  Attached w → calls (exec _hideView w) = calls w ++ hideCalls.
Proof.
  intros H. hide_cases w.
  - rewrite <- !app_assoc. reflexivity.
  - apply bool_decide_eq_false in Heqb. contradiction.
Qed.

(** X1. [_hideView] on a Hidden form returns at once and leaves the world as
    it is; on an attached form it gives the focus to the editing view, then
    to the save button, removes the form and gives the focus to the editing
    view again, in that order.  Hiding twice is hiding once. *)
Theorem hideView_idempotent (w : World) :
  (Hidden w → _hideView w = (Ok tt, w)) ∧
  (Attached w → calls (exec _hideView w) = calls w ++ hideCalls) ∧
  exec _hideView (exec _hideView w) = exec _hideView w.
Proof.
  split; [apply hideView_Hidden|]. split; [apply hideView_calls|].
  pose proof (hideView_Hidden _ (hideView_hides w)) as E.
  unfold exec at 1. by rewrite E.
Qed.

Lemma hideView_idempotent_witness :
  calls (exec _hideView exampleOpen) = calls exampleOpen ++ hideCalls ∧
  _hideView (initial exampleCommands) = (Ok tt, initial exampleCommands).
Proof.
  split.
  - apply (proj1 (proj2 (hideView_idempotent exampleOpen))). unfold Attached.
    replace (_balloon exampleOpen) with [FormView] by (vm_compute; reflexivity).
    left.
  - apply (proj1 (hideView_idempotent (initial exampleCommands))).
    unfold Hidden. vm_compute. apply not_elem_of_nil.
Defined.

Lemma perform_ClickOutside (w : World) : perform EvClickOutside w = exec _hideView w.
Proof.
  unfold perform, exec. cbn [handler]. unfold onClickOutside, _isViewInBalloon.
  unfold_m. simpl. destruct (bool_decide (FormView ∈ _balloon w)) eqn:E; [reflexivity|].
  apply bool_decide_eq_false in E. by rewrite hideView_Hidden.
Qed.

(** ** Cancelling *)

(** X3. The cancel listener tests neither that the form is open nor that a
    batch exists: in every state it executes one ['undo'] with the current
    value of [_batch] and hides the form, and the batch stays in place, so
    cancelling twice executes ['undo'] twice with the same batch. *)
Theorem cancel_always_undoes (w : World) :
  executes (calls (perform EvCancel w))
    = executes (calls w) ++ [("undo", ArgBatch (_batch w))] ∧
  Hidden (perform EvCancel w) ∧
  _batch (perform EvCancel w) = _batch w ∧
  executes (calls (run [EvCancel; EvCancel] w))
    = executes (calls w) ++ [("undo", ArgBatch (_batch w)); ("undo", ArgBatch (_batch w))].
Proof.
  assert (E : ∀ w, executes (calls (perform EvCancel w))
                   = executes (calls w) ++ [("undo", ArgBatch (_batch w))]).
  { intros w0. unfold perform, exec. cbn [handler]. rewrite onCancel_eq.
    fold (exec _hideView (add_call (CExecute "undo" (ArgBatch (_batch w0))) w0)).
    rewrite hideView_executes. simpl. by rewrite executes_app. }
  assert (B : ∀ w, _batch (perform EvCancel w) = _batch w).
  { intros w0. unfold perform, exec. cbn [handler]. rewrite onCancel_eq.
    fold (exec _hideView (add_call (CExecute "undo" (ArgBatch (_batch w0))) w0)).
    by destruct (hideView_batch (add_call (CExecute "undo" (ArgBatch (_batch w0))) w0))
      as [-> _]. }
  split; [apply E|]. split.
  { unfold perform, exec. cbn [handler]. rewrite onCancel_eq. apply hideView_hides. }
  split; [apply B|].
  cbn [run foldl]. rewrite E, B, E, <- app_assoc. reflexivity.
Qed.

(** ** The batch after a session *)

Lemma perform_batch (ev : Event) (w : World) :
  ev ≠ EvButtonExecute →
  _batch (perform ev w) = _batch w ∧ batches (perform ev w) = batches w.
Proof.
  intros Hev. destruct ev as [| | | | tableSelected | | p v]; [done|..].
  - destruct (hideView_batch w) as (? & ? & _). by split.
  - unfold perform, exec. cbn [handler]. rewrite onCancel_eq.
    destruct (hideView_batch (add_call (CExecute "undo" (ArgBatch (_batch w))) w))
      as (? & ? & _). by split.
  - rewrite perform_Esc. destruct (hideView_batch w) as (? & ? & _). by split.
  - destruct tableSelected.
    + unfold perform, exec. cbn [handler]. unfold onUiUpdate, _isViewVisible.
      unfold_m. simpl. by destruct (bool_decide _).
    + destruct (hideView_batch w) as (? & ? & _). by split.
  - rewrite perform_ClickOutside. destruct (hideView_batch w) as (? & ? & _). by split.
  - destruct (perform_change (p, v) w) as (_ & ? & ? & _). by split.
Qed.

(** X4. Only [_showView] assigns [_batch]: no other callback changes it or
    creates a batch, and hiding does not reset it.  A change of a tracked
    property that arrives after the form was closed is therefore executed
    under the batch of the closed session. *)
Theorem batch_survives_hide (w : World) :
  (∀ ev, ev ≠ EvButtonExecute →
     _batch (perform ev w) = _batch w ∧ batches (perform ev w) = batches w) ∧
  (∀ p v name,
     p ∈ CELL_PROPERTIES → propertyNameToCommandName p = Some name →
     Hidden (perform EvSubmit w) ∧
     perform (EvChange p v) (perform EvSubmit w)
       = add_call (CExecute name (ArgPayload v (_batch w))) (perform EvSubmit w)).
Proof.
  split; [intros ev; apply perform_batch|].
  intros p v name Hp En. split; [apply hideView_hides|].
  destruct (onChange_tracked p v (perform EvSubmit w) Hp) as (name' & En' & E).
  unfold perform at 1, exec. cbn [handler]. rewrite E. simpl.
  destruct (perform_batch EvSubmit w) as [-> _]; [done|]. congruence.
Qed.

Lemma batch_survives_hide_witness :
  perform (EvChange "padding" (JStr "5px")) (perform EvSubmit exampleOpen)
    = add_call (CExecute "tableCellPadding" (ArgPayload (JStr "5px") (_batch exampleOpen)))
               (perform EvSubmit exampleOpen) ∧
  _batch exampleOpen = JBatch 0.
Proof.
  split; [|reflexivity].
  apply (proj2 (batch_survives_hide exampleOpen)).
  - unfold CELL_PROPERTIES. do 3 right. left.
  - reflexivity.
Defined.

(** ** Listeners *)

Lemma sublist_filter_mono {A : Type} (P : A → Prop) `{!∀ x, Decision (P x)}
    (l1 l2 : list A) :
  l1 `sublist_of` l2 → filter P l1 `sublist_of` filter P l2.
Proof.
  induction 1 as [|x l1 l2 _ IH|x l1 l2 _ IH]; [done|..].
  - rewrite !filter_cons. destruct (decide (P x)); [by constructor | done].
  - rewrite filter_cons. destruct (decide (P x)); [by constructor | done].
Qed.

Lemma effect_listeners_sublist (w w' : World) :
  effect w w' → listeners w' `sublist_of` listeners w.
Proof.
  induction 1 as [w | w | w | c w Hc | w1 w2 w3 _ IH1 _ IH2]; try done.
  - by destruct (showView_listeners w) as [-> _].
  - hide_cases w; [|done].
    etrans; apply sublist_filter.
  - by etrans.
Qed.

Lemma hideView_detaches_update (w : World) (b : bool) :
  Attached w → attached (EvUiUpdate b) (exec _hideView w) = 0.
Proof.
  intros H. unfold attached. hide_cases w.
  - rewrite !list_filter_filter.
    rewrite (list_filter_iff _ (λ _, False)); [|intros x; tauto].
    induction (listeners w) as [|x l IH]; [done|].
    rewrite filter_cons_False by tauto. exact IH.
  - apply bool_decide_eq_false in Heqb. contradiction.
Qed.

(** X5. No callback attaches a listener: after any event the attached
    listeners are a sublist of those attached before, so each kind of
    listener is attached at most as often as before. *)
Theorem listeners_never_grow (ev ev' : Event) (w : World) :
  listeners (fire ev w) `sublist_of` listeners w ∧
  listeners (perform ev w) `sublist_of` listeners w ∧
  attached ev' (fire ev w) ≤ attached ev' w.
Proof.
  pose proof (effect_listeners_sublist _ _ (fire_effect ev w)) as H.
  split; [exact H|]. split; [apply effect_listeners_sublist, perform_effect|].
  unfold attached. apply sublist_length. by apply sublist_filter_mono.
Qed.

(** X6. The first [_hideView] of an attached form detaches the plugin's
    listener for the editor UI's update event, and nothing attaches it
    again: from then on an update event, with or without a table selected,
    runs no callback, and a form that is shown again stays open when the
    selection leaves the table. *)
Theorem update_listener_detached (w w' : World) (b : bool) :
  Attached w → effect (exec _hideView w) w' →
  attached (EvUiUpdate b) (exec _hideView w) = 0 ∧
  attached (EvUiUpdate b) w' = 0 ∧
  fire (EvUiUpdate b) w' = w'.
Proof.
  intros Ha He.
  pose proof (hideView_detaches_update w b Ha) as H0.
  assert (H1 : attached (EvUiUpdate b) w' = 0).
  { pose proof (effect_listeners_sublist _ _ He) as Hs.
    apply (sublist_filter_mono (λ l, l = listenerOf (EvUiUpdate b))) in Hs.
    apply sublist_length in Hs. unfold attached in *. lia. }
  split; [exact H0|]. split; [exact H1|].
  unfold fire. by rewrite H1.
Qed.

Lemma update_listener_detached_witness :
  Attached exampleReopened ∧
  fire (EvUiUpdate false) exampleReopened = exampleReopened.
Proof.
  split.
  - unfold Attached.
    replace (_balloon exampleReopened) with [FormView] by (vm_compute; reflexivity).
    left.
  - refine (proj2 (proj2 (update_listener_detached exampleOpen exampleReopened false _ _))).
    + unfold Attached.
      replace (_balloon exampleOpen) with [FormView] by (vm_compute; reflexivity).
      left.
    + unfold exampleReopened, perform. cbn [handler]. unfold onSubmit.
      apply effect_show.
Defined.

(** ** The balloon *)

Lemma filter_none {A : Type} (P : A → Prop) `{!∀ x, Decision (P x)} (l : list A) :
  Forall (λ x, ¬ P x) l → filter P l = [].
Proof.
  induction 1 as [|x l Hx _ IH]; [reflexivity|].
  by rewrite filter_cons_False.
Qed.

Lemma showView_balloon_cases (w : World) :
  _balloon (exec _showView w)
    = if bool_decide (FormView ∈ _balloon w) then _balloon w
      else FormView :: _balloon w.
Proof.
  show_cases w; try reflexivity.
  apply bool_decide_eq_true in Hvis.
  rewrite bool_decide_eq_true_2; [reflexivity|].
  destruct (_balloon w); [discriminate|]. injection Hvis as ->. left.
Qed.

Lemma effect_balloon (w w' : World) :
  effect w w' →
  filter (λ x, x ≠ FormView) (_balloon w') = filter (λ x, x ≠ FormView) (_balloon w) ∧
  (length (filter (λ x, x = FormView) (_balloon w)) ≤ 1 →
   length (filter (λ x, x = FormView) (_balloon w')) ≤ 1).
Proof.
  induction 1 as [w | w | w | c w Hc | w1 w2 w3 _ [IH1 IH1'] _ [IH2 IH2']];
    try done.
  - rewrite showView_balloon_cases.
    destruct (bool_decide (FormView ∈ _balloon w)) eqn:E; [done|].
    apply bool_decide_eq_false in E.
    rewrite filter_cons_False by (intros H; by apply H).
    split; [done|]. intros _. rewrite filter_cons_True by done. simpl.
    assert (H0 : filter (λ x, x = FormView) (_balloon w) = []).
    { apply filter_none. apply Forall_forall. by intros x Hx ->. }
    rewrite H0. simpl. lia.
  - rewrite hideView_balloon. split.
    + rewrite list_filter_filter. apply list_filter_iff. intros x. tauto.
    + intros _. rewrite list_filter_filter.
      rewrite (list_filter_iff _ (λ _, False)); [|intros x; tauto].
      induction (_balloon w) as [|x l IH]; [simpl; lia|].
      rewrite filter_cons_False by tauto. exact IH.
  - split; [congruence | auto].
Qed.

(** X7. The plugin touches no view but its own: after any event the views
    of other plugins are in the balloon in the same order as before.  It adds
    its form only when the form is not in the balloon, so a form that is in
    the balloon at most once is still in it at most once after any event. *)
Theorem balloon_other_views_kept (ev : Event) (w : World) :
  filter (λ x, x ≠ FormView) (_balloon (fire ev w))
    = filter (λ x, x ≠ FormView) (_balloon w) ∧
  (length (filter (λ x, x = FormView) (_balloon w)) ≤ 1 →
   length (filter (λ x, x = FormView) (_balloon (fire ev w))) ≤ 1).
Proof. apply effect_balloon, fire_effect. Qed.

Lemma balloon_other_views_kept_witness :
  length (filter (λ x, x = FormView)
            (_balloon (fire EvButtonExecute exampleCovered))) ≤ 1.
Proof.
  apply (proj2 (balloon_other_views_kept EvButtonExecute exampleCovered)).
  replace (_balloon exampleCovered) with [OtherView 0; FormView]
    by (vm_compute; reflexivity).
  vm_compute. lia.
Defined.

(** ** Batches in the log *)

Lemma createdBatch_mono (n m : nat) (v : JsVal) :
  n ≤ m → createdBatch n v → createdBatch m v.
Proof.
  intros Hle [->|(k & Hk & ->)]; [by left|]. right. exists k. split; [lia|done].
Qed.

Lemma effect_createdBatch (w w' : World) :
  effect w w' →
  createdBatch (batches w) (_batch w) →
  Forall (λ e : string * ExecArg, createdBatch (batches w) (argBatch e.2))
         (executes (calls w)) →
  batches w ≤ batches w' ∧
  createdBatch (batches w') (_batch w') ∧
  Forall (λ e : string * ExecArg, createdBatch (batches w') (argBatch e.2))
         (executes (calls w')).
Proof.
  induction 1 as [w | w | w | c w Hc | w1 w2 w3 _ IH1 _ IH2]; intros Hb He.
  - done.
  - destruct (decide (Visible w)) as [Hv|Hv].
    + unfold exec. by rewrite showView_Visible.
    + destruct (showView_batch w Hv) as [E1 E2].
      rewrite showView_executes, E1, E2. split; [lia|]. split.
      * right. exists (batches w). split; [lia|done].
      * apply Forall_app. split.
        -- eapply Forall_impl; [exact He|]. intros e. apply createdBatch_mono. lia.
        -- eapply Forall_impl; [apply showExecutes_batch|].
           intros e ->. right. exists (batches w). split; [lia|done].
  - destruct (hideView_batch w) as (E1 & E2 & _).
    by rewrite hideView_executes, E1, E2.
  - split; [done|]. split; [exact Hb|]. simpl. rewrite executes_app.
    apply Forall_app. split; [exact He|].
    destruct c; simpl; try constructor; [|constructor].
    simpl in *. by rewrite Hc.
  - destruct (IH1 Hb He) as (L1 & Hb2 & He2).
    destruct (IH2 Hb2 He2) as (L2 & Hb3 & He3).
    split; [lia | done].
Qed.

(** X8. In every state the plugin reaches from [init], [_batch] is [null]
    or a batch that the model has created, and so is the batch of every
    [editor.execute] call in the log, the ['undo'] calls included. *)
Theorem reachable_batches_created (cmds : gmap string JsVal) (w : World) :
  reachable cmds w →
  createdBatch (batches w) (_batch w) ∧
  Forall (λ e : string * ExecArg, createdBatch (batches w) (argBatch e.2))
         (executes (calls w)).
Proof.
  induction 1 as [|ev w _ [Hb He]|w _ [Hb He]].
  - split; [by left | constructor].
  - by destruct (effect_createdBatch _ _ (fire_effect ev w) Hb He) as (_ & ? & ?).
  - rewrite createButton_world. by split.
Qed.

Lemma reachable_batches_created_witness :
  createdBatch (batches (fire (EvChange "padding" (JStr "5px")) (initial exampleCommands)))
               (_batch (fire (EvChange "padding" (JStr "5px")) (initial exampleCommands))).
Proof.
  apply (reachable_batches_created exampleCommands).
  apply reachable_fire. apply reachable_initial.
Defined.

(** ** The name mapping on arbitrary names *)




(** ** Commands that are not registered *)

Lemma fillLoop_throw (props : list string) (data : gmap string JsVal) (w : World) :
  Exists (λ p, formValue (commands w) p = None) props →
  fillLoop props data w = (Throw "TypeError", w).
Proof.
  revert data. induction props as [|p props IH]; intros data H.
  - by apply Exists_nil in H.
  - cbn [fillLoop]. unfold commandName, commandValue. unfold_m.
    apply Exists_cons in H. unfold formValue in H at 1.
    destruct (propertyNameToCommandName p) as [name|]; [|reflexivity].
    simpl in *. destruct (commands w !! name) as [v|]; [|reflexivity].
    simpl in *. destruct H as [H|H]; [discriminate|]. by apply IH.
Qed.

Lemma fill_throw (w : World) :
  Exists (λ p, formValue (commands w) p = None) CELL_PROPERTIES →
  _fillViewFormFromCommandValues w = (Throw "TypeError", w).
Proof.
  intros H. unfold _fillViewFormFromCommandValues. unfold_m.
  by rewrite fillLoop_throw.
Qed.

(** X10. When the command of some tracked property is not registered,
    [_showView] on a Hidden form throws a [TypeError] while filling the
    form: by then the form is in the balloon and visible and [_batch] is a
    new batch, but the form has been neither set nor focused. *)
Theorem showView_missing_command (w : World) (p name : string) :
  Hidden w →
  p ∈ CELL_PROPERTIES → propertyNameToCommandName p = Some name →
  commands w !! name = None →
  (_showView w).1 = Throw "TypeError" ∧
  Visible (exec _showView w) ∧
  _batch (exec _showView w) = JBatch (batches w) ∧
  calls (exec _showView w) = calls w ++ [CBalloonAdd FormView; CCreateBatch].
Proof.
  intros Hh Hp En Hc.
  assert (Hex : Exists (λ p, formValue (commands w) p = None) CELL_PROPERTIES).
  { apply Exists_exists. exists p. split; [exact Hp|].
    unfold formValue. rewrite En. simpl. by rewrite Hc. }
  pose proof (Hidden_not_Visible w Hh) as Hnv.
  unfold exec, _showView, _isViewVisible, _isViewInBalloon, createBatch, balloon_add.
  unfold_m. simpl.
  rewrite (bool_decide_eq_false_2 _ Hnv), (bool_decide_eq_false_2 _ Hh). simpl.
  rewrite fill_throw by exact Hex. simpl.
  rewrite <- app_assoc. by repeat split.
Qed.

Lemma showView_missing_command_witness :
  (_showView (initial ∅)).1 = Throw "TypeError" ∧
  calls (exec _showView (initial ∅))
    = calls (initial ∅) ++ [CBalloonAdd FormView; CCreateBatch].
Proof.
  destruct (showView_missing_command (initial ∅) "borderStyle" "tableCellBorderStyle")
    as (H1 & _ & _ & H2).
  - unfold Hidden. simpl. apply not_elem_of_nil.
  - unfold CELL_PROPERTIES. left.
  - reflexivity.
  - reflexivity.
  - by split.
Defined.

(** ** What the form receives *)

Lemma formValue_truthy (cmds : gmap string JsVal) (p : string) (x : JsVal) :
  formValue cmds p = Some x →
  (truthy x = true ∨ x = JStr "") ∧
  (p = "borderStyle" ∨ p = "horizontalAlignment" ∨ p = "verticalAlignment" →
   truthy x = true).
Proof.
  unfold formValue.
  destruct (propertyNameToCommandName p) as [name|]; [|discriminate].
  simpl. destruct (cmds !! name) as [v|]; [|discriminate].
  simpl. intros [= <-]. unfold falsy.
  destruct (truthy v) eqn:Hv; simpl; [by split; [left|]|].
  split.
  - unfold defaultValue. repeat (destruct (String.eqb p _); [by left|]). by right.
  - intros [-> | [-> | ->]]; reflexivity.
Qed.

(** X11. Whenever [_fillViewFormFromCommandValues] returns, it has set the
    form exactly once (what follows in the log is only what the change
    listener executes for the fields that the call changes, nothing when it
    changes none), with a record whose keys are tracked properties and
    whose values are truthy or the empty string: the form never receives
    [undefined], [null], [false], [0] or [NaN], and borderStyle,
    horizontalAlignment and verticalAlignment are never empty. *)
Theorem fill_values_truthy_or_empty (w w' : World) :
  _fillViewFormFromCommandValues w = (Ok tt, w') →
  ∃ data,
    w' = log_calls
           (CViewSet data ::
            (execCall <$> setExecutes (changeListeners w) (_batch w)
                                      (formOf (calls w)) CELL_PROPERTIES data)) w ∧
    (formUpToDate w → w' = add_call (CViewSet data) w) ∧
    ∀ p v, data !! p = Some v →
      p ∈ CELL_PROPERTIES ∧
      (truthy v = true ∨ v = JStr "") ∧
      (p = "borderStyle" ∨ p = "horizontalAlignment" ∨ p = "verticalAlignment" →
       truthy v = true).
Proof.
  intros H. destruct (fill_cases w) as [(e & _ & He) | (data & Hr & Hd & He)];
    [rewrite He in H; discriminate|].
  rewrite He in H. injection H as <-. exists data. split; [reflexivity|]. split.
  { intros Hup. rewrite setExecutes_unchanged; [reflexivity|].
    intros k v Hk Hv. apply Hup; [exact Hk|]. by eapply fillRecord_lookup. }
  pose proof (fillLoop_ok_inv _ _ _ _ _ Hd) as Hs.
  rewrite (fillLoop_ok _ _ _ Hs) in Hd.
  assert (Ed : data = foldl (λ d p, <[p := default JUndefined (formValue (commands w) p)]> d)
                            ∅ CELL_PROPERTIES) by congruence.
  clear Hd. rewrite Ed. intros p v.
  rewrite (foldl_insert_lookup (λ p, default JUndefined (formValue (commands w) p))).
  destruct (decide (p ∈ CELL_PROPERTIES)) as [Hp|Hp]; [|by rewrite lookup_empty].
  intros [= <-]. split; [exact Hp|].
  rewrite Forall_forall in Hs. destruct (Hs p Hp) as [x Hx].
  rewrite Hx. simpl. by apply (formValue_truthy (commands w) p).
Qed.

Lemma fill_values_truthy_or_empty_witness :
  ∃ (w' : World) (data : gmap string JsVal),
    _fillViewFormFromCommandValues (initial exampleCommands) = (Ok tt, w') ∧
    CViewSet data ∈ calls w' ∧
    ∀ p v, data !! p = Some v → p ∈ CELL_PROPERTIES.
Proof.
  assert (Hs : Forall (λ p, is_Some (formValue (commands (initial exampleCommands)) p))
                      CELL_PROPERTIES).
  { repeat constructor; vm_compute; eauto. }
  destruct (fill_cases (initial exampleCommands)) as [(e & Hn & _) | (d & _ & _ & Hf)].
  - exfalso. unfold fillRecord in Hn. by rewrite decide_True in Hn by exact Hs.
  - destruct (fill_values_truthy_or_empty (initial exampleCommands) _ Hf)
      as (data & E & _ & H).
    eexists _, data. split; [exact Hf|]. split; [|intros p v Hv; by apply (H p v)].
    rewrite E. simpl. do 2 right. left.
Defined.

(** ** The store of [toArray] *)

(** X12. [toArray] always returns an array.  It allocates at most one array
    and leaves every array of the store as it was; the array it returns is
    the argument itself or the newly allocated one, and arguments after the
    first are ignored. *)
Theorem toArray_store (args : list JsVal) (h : ToArray.Heap) :
  isArray (ToArray.toArray args h).1 = true ∧
  (∃ k, (ToArray.toArray args h).2 = h ++ k ∧ length k ≤ 1) ∧
  (∀ a, a < length h → (ToArray.toArray args h).2 !! a = h !! a) ∧
  ((ToArray.toArray args h).1 = ToArray.arg0 args ∧ (ToArray.toArray args h).2 = h
   ∨ (ToArray.toArray args h).1 = JArr (length h) ∧
     length (ToArray.toArray args h).2 = S (length h)) ∧
  ToArray.toArray args h = ToArray.toArray [ToArray.arg0 args] h.
Proof.
  assert (Hl : ∀ (k : list (list JsVal)) a, a < length h → (h ++ k) !! a = h !! a).
  { intros k a Ha. by apply lookup_app_l. }
  unfold ToArray.toArray. change (ToArray.arg0 [ToArray.arg0 args]) with (ToArray.arg0 args).
  destruct (ToArray.arg0 args); cbn [isArray ToArray.alloc fst snd];
    (split; [reflexivity|]);
    (split; [first [by exists [] ; rewrite app_nil_r; simpl; split; [|lia]
                   | by eexists; split; [reflexivity | simpl; lia]]|]);
    (split; [first [done | intros a Ha; by apply Hl]|]);
    (split; [|reflexivity]);
    first [by left | right; split; [reflexivity | rewrite length_app; simpl; lia]].
Qed.

Lemma toArray_store_witness :
  (ToArray.toArray [JStr "a"; JStr "b"] [[JNum 1]; []]).2 !! 0 = Some [JNum 1].
Proof.
  apply (proj1 (proj2 (proj2 (toArray_store [JStr "a"; JStr "b"] [[JNum 1]; []])))).
  simpl. lia.
Defined.

(** ** Sessions that are accepted *)

(** X13. From a Hidden form, showing it, then any changes, then submit: the
    [editor.execute] calls added are those that showing the form leads to
    (one for every tracked field that setting the form changes), then one
    per change of a tracked property, in order, all under the batch created
    by the show; changes of other properties add nothing, no ['undo'] is
    executed, the form ends Hidden and [_batch] is still the batch of the
    session. *)
Theorem submit_session (w : World) (cs : list (string * JsVal)) :
  Hidden w →
  let b := JBatch (batches w) in
  let w' := run (EvButtonExecute :: changes cs ++ [EvSubmit]) w in
  executes (calls w')
    = executes (calls w) ++ showExecutes w ++ omap (changeCall b) cs ∧
  Forall (λ e : string * ExecArg, argBatch e.2 = b)
         (showExecutes w ++ omap (changeCall b) cs) ∧
  (formUpToDate w →
   executes (calls w') = executes (calls w) ++ omap (changeCall b) cs) ∧
  undos (calls w') = undos (calls w) ∧
  Hidden w' ∧ _batch w' = b.
Proof.
  intros Hh b w'.
  destruct (showView_batch w (Hidden_not_Visible w Hh)) as [Hb _].
  pose proof (showView_executes w) as He1.
  destruct (run_changes cs (exec _showView w)) as (_ & Hb2 & _ & _ & _ & He2).
  assert (Hw' : w' = exec _hideView (run (changes cs) (exec _showView w))).
  { unfold w'. change (EvButtonExecute :: changes cs ++ [EvSubmit])
      with ([EvButtonExecute] ++ changes cs ++ [EvSubmit]).
    rewrite !run_app. reflexivity. }
  assert (Hex : executes (calls w')
                = executes (calls w) ++ showExecutes w ++ omap (changeCall b) cs).
  { rewrite Hw', hideView_executes, He2, He1, Hb, <- app_assoc. reflexivity. }
  split; [exact Hex|]. split; [|split; [|split; [|split]]].
  - apply Forall_app. split; [apply showExecutes_batch|].
    apply Forall_forall. intros e Hin.
    apply list_elem_of_omap in Hin as (c & _ & Hc). by eapply changeCall_batch.
  - intros Hup. by rewrite Hex, (showExecutes_upToDate w Hup).
  - unfold undos. rewrite Hex, !omap_app, changeCalls_no_undo, showExecutes_no_undo.
    by rewrite !app_nil_r.
  - rewrite Hw'. apply hideView_hides.
  - rewrite Hw'. destruct (hideView_batch (run (changes cs) (exec _showView w)))
      as [-> _]. by rewrite Hb2, Hb.
Qed.

Lemma submit_session_witness :
  executes (calls (run (EvButtonExecute
                          :: changes [("isFocused", JBool true); ("padding", JStr "5px")]
                          ++ [EvSubmit]) (initial exampleCommands)))
    = executes (calls (initial exampleCommands)) ++
      showExecutes (initial exampleCommands) ++
      omap (changeCall (JBatch (batches (initial exampleCommands))))
           [("isFocused", JBool true); ("padding", JStr "5px")].
Proof.
  assert (Hh : Hidden (initial exampleCommands)).
  { unfold Hidden. simpl. apply not_elem_of_nil. }
  destruct (submit_session (initial exampleCommands)
              [("isFocused", JBool true); ("padding", JStr "5px")] Hh) as [He _].
  exact He.
Defined.

(** ** Callbacks run once *)

Lemma effect_buttons (w w' : World) : effect w w' → buttons w' = buttons w.
Proof.
  unfold buttons.
  induction 1 as [w | w | w | c w Hc | w1 w2 w3 _ IH1 _ IH2]; try done.
  - by destruct (showView_listeners w) as [-> _].
  - hide_cases w; [|done].
    rewrite !list_filter_filter. f_equal. apply list_filter_iff.
    intros x. split; [tauto|]. intros H.
    repeat split; try exact H; intros ->; discriminate H.
  - congruence.
Qed.

Lemma reachable_button_once (cmds : gmap string JsVal) (w : World) :
  reachable cmds w → attached EvButtonExecute w = Nat.min 1 (buttons w).
Proof.
  induction 1 as [|ev w _ IH|w _ IH].
  - reflexivity.
  - pose proof (fire_effect ev w) as He. rewrite (effect_buttons _ _ He).
    unfold attached in *. rewrite (effect_listeners _ _ _ He); done.
  - rewrite createButton_world. unfold attached, buttons in *. simpl.
    rewrite !filter_app, !length_app.
    rewrite (filter_cons_True (λ l, isButtonListener l = true)) by done.
    fold (buttons w) in *. simpl.
    destruct (buttons w) as [|k] eqn:Hk.
    + rewrite filter_cons_True by done. simpl in *. lia.
    + rewrite filter_cons_False by (by intros [=]). simpl in *. lia.
Qed.

(** X14. [init] attaches no button callback: the factory callback attaches
    one to each button it makes.  In every state the plugin reaches, the
    callback of the first button is attached once as soon as that button is
    made; the callbacks of submit, cancel, Esc, click-outside and change are
    attached exactly once, so firing such an event runs its callback once;
    and the callback of the editor UI's update event is attached at most
    once. *)
Theorem reachable_callbacks_once (cmds : gmap string JsVal) (w : World) (ev : Event) :
  reachable cmds w →
  (keptListener ev → attached ev w = 1 ∧ fire ev w = perform ev w) ∧
  (∀ b, attached (EvUiUpdate b) w ≤ 1) ∧
  attached EvButtonExecute (initial cmds) = 0 ∧
  attached EvButtonExecute w = Nat.min 1 (buttons w).
Proof.
  intros Hr. split; [|split; [|split]].
  - intros Hk. destruct (reachable_invariant cmds w Hr) as (_ & _ & _ & Hl).
    split; [by apply Hl | apply fire_once; by apply Hl].
  - intros b. induction Hr as [|ev' w Hr IH|w Hr IH]; [by vm_compute|..].
    + pose proof (effect_listeners_sublist _ _ (fire_effect ev' w)) as Hs.
      apply (sublist_filter_mono (λ l, l = listenerOf (EvUiUpdate b))) in Hs.
      apply sublist_length in Hs. unfold attached in *. lia.
    + rewrite createButton_attached; [exact IH | right; eauto].
  - reflexivity.
  - by apply (reachable_button_once cmds).
Qed.

Lemma reachable_callbacks_once_witness :
  fire EvCancel (fire EvButtonExecute exampleEditor)
    = perform EvCancel (fire EvButtonExecute exampleEditor) ∧
  attached EvButtonExecute exampleEditor = 1.
Proof.
  assert (Hr : reachable exampleCommands exampleEditor)
    by apply reachable_button, reachable_initial.
  split.
  - apply (reachable_callbacks_once exampleCommands
             (fire EvButtonExecute exampleEditor) EvCancel).
    + by apply reachable_fire.
    + exact I.
  - rewrite (proj2 (proj2 (proj2
               (reachable_callbacks_once exampleCommands exampleEditor EvCancel Hr)))).
    reflexivity.
Defined.
